(** * Anaemia prediction form ([app.py])

    A shallow embedding of the Streamlit script [app.py], and the properties
    of its advisory rules, its report and its use of the two external
    collaborators: the geocoder and the pickled classifier.

    The script is straight-line Python over a handful of widget values.  It is
    modelled as a computation in a small trace-and-exception monad: each call
    to Streamlit that renders something and each call to a collaborator is an
    event of the trace, and an exception that nothing catches ends the run.
    The model starts at the location section (line 113): the lines before it
    render the theme, the welcome message, the sidebar and the image, and
    read the five measurement widgets, whose values the model takes from
    [App.Form]; they call neither collaborator and show no warning.

    Python floats are IEEE binary64 and are modelled by primitive floats, with
    the two conversions to text the script uses ([str], which an f-string
    field applies, and the [.1f] format) written out over the exact rational
    value of the float. *)

Set Warnings "-inexact-float".

From Stdlib Require Import ZArith QArith Qround List String Ascii Bool Lia.
From Stdlib Require Import Floats DecimalString.
Import ListNotations.

Close Scope Q_scope.
Open Scope Z_scope.
Open Scope string_scope.

(** ** Characters that a string literal cannot hold *)

Definition nl : string := String "010"%char EmptyString.
Definition dq : string := String "034"%char EmptyString.

(** [name="value"], as it stands in the HTML the script renders. *)
Definition attr (name value : string) : string :=
  name ++ "=" ++ dq ++ value ++ dq.

(** ** Python floats as text *)

Module PyFloat.

Definition digits_of_Z (z : Z) : string :=
  NilZero.string_of_uint (N.to_uint (Z.to_N z)).

Definition ten_pow (k : Z) : Q := Qpower (10 # 1) k.

Definition two_pow (k : Z) : Q := Qpower (2 # 1) k.

(** The value of the finite float with mantissa [m] and exponent [e]. *)
Definition Q_of_finite (m : positive) (e : Z) : Q :=
  Qred (Qmult (inject_Z (Zpos m)) (two_pow e)).

Definition Qlt_bool (a b : Q) : bool := negb (Qle_bool b a).

(** The least [k'] from [k] on with [v < 10^k']. *)
Fixpoint decimal_exponent (fuel : nat) (v : Q) (k : Z) : Z :=
  match fuel with
  | O => k
  | S fuel' =>
      if Qle_bool (ten_pow k) v then decimal_exponent fuel' v (k + 1) else k
  end.

(** A lower estimate of the decimal exponent from the binary one
    (30103/100000 is just above the decimal logarithm of 2). *)
Definition exponent_guess (m : positive) (e : Z) : Z :=
  (Zpos (digits2_pos m) + e - 1) * 30103 / 100000 - 1.

(** Half the distance to the neighbouring floats: the float below a power of
    two is twice as close as the one above, except in the lowest binade. *)
Definition half_gap_below (m : positive) (e : Z) : Q :=
  if (Pos.eqb m 4503599627370496 && Z.ltb (-1074) e)%bool
  then two_pow (e - 2) else two_pow (e - 1).

Definition half_gap_above (e : Z) : Q := two_pow (e - 1).

(** Whether the decimal [d] reads back as the float [m * 2^e]: it lies between
    the midpoints to the neighbours, the midpoints themselves included when
    [m] is even (round half to even). *)
Definition reads_back (m : positive) (e : Z) (d : Q) : bool :=
  let v := Q_of_finite m e in
  let lo := Qred (Qminus v (half_gap_below m e)) in
  let hi := Qred (Qplus v (half_gap_above e)) in
  if Z.even (Zpos m) then Qle_bool lo d && Qle_bool d hi
  else Qlt_bool lo d && Qlt_bool d hi.

(** Of [c * unit] and [(c+1) * unit], the one nearer to [v]; the even one on
    a tie. *)
Definition nearest_of (v unit : Q) (c : Z) : Z :=
  let down := Qmult (inject_Z c) unit in
  let up := Qmult (inject_Z (c + 1)) unit in
  match Qcompare (Qminus v down) (Qminus up v) with
  | Lt => c
  | Gt => c + 1
  | Eq => if Z.even c then c else c + 1
  end.

(** The shortest decimal that reads back as the float, as [c * 10^x], trying
    [n], [n+1], ... significant digits. *)
Fixpoint shortest_digits (fuel : nat) (m : positive) (e k n : Z) : Z * Z :=
  let v := Q_of_finite m e in
  let unit := ten_pow (k - n) in
  let c := Qfloor (Qdiv v unit) in
  let down_ok := reads_back m e (Qmult (inject_Z c) unit) in
  let up_ok := reads_back m e (Qmult (inject_Z (c + 1)) unit) in
  match fuel with
  | O => (nearest_of v unit c, k - n)
  | S fuel' =>
      match down_ok, up_ok with
      | true, true => (nearest_of v unit c, k - n)
      | true, false => (c, k - n)
      | false, true => (c + 1, k - n)
      | false, false => shortest_digits fuel' m e k (n + 1)
      end
  end.

Fixpoint strip_zeros (l : list ascii) : list ascii :=
  match l with
  | "0"%char :: l' => strip_zeros l'
  | _ => l
  end.

Definition strip_trailing_zeros (s : string) : string :=
  string_of_list_ascii (rev (strip_zeros (rev (list_ascii_of_string s)))).

Fixpoint zeros (n : nat) : string :=
  match n with
  | O => EmptyString
  | S n' => String "0" (zeros n')
  end.

(** The exponent of the scientific notation: a sign and at least two digits. *)
Definition exponent_text (x : Z) : string :=
  let a := digits_of_Z (Z.abs x) in
  (if Z.ltb x 0 then "-" else "+") ++ (if Z.ltb (Z.abs x) 10 then "0" ++ a else a).

(** The digits [ds], read as [0.ds * 10^decpt], laid out as [repr] does:
    scientific notation below 1e-4 and from 1e16, a point and at least one
    digit after it otherwise. *)
Definition repr_layout (ds : string) (decpt : Z) : string :=
  let n := Z.of_nat (String.length ds) in
  if (Z.leb decpt (-4) || Z.ltb 16 decpt)%bool then
    match ds with
    | EmptyString => EmptyString
    | String d EmptyString => String d EmptyString ++ "e" ++ exponent_text (decpt - 1)
    | String d rest => String d EmptyString ++ "." ++ rest ++ "e" ++ exponent_text (decpt - 1)
    end
  else if Z.leb decpt 0 then "0." ++ zeros (Z.to_nat (- decpt)) ++ ds
  else if Z.leb n decpt then ds ++ zeros (Z.to_nat (decpt - n)) ++ ".0"
  else substring 0 (Z.to_nat decpt) ds ++ "." ++
       substring (Z.to_nat decpt) (Z.to_nat (n - decpt)) ds.

Definition repr_finite (m : positive) (e : Z) : string :=
  let v := Q_of_finite m e in
  let k := decimal_exponent 6 v (exponent_guess m e) in
  let '(c, x) := shortest_digits 16 m e k 1 in
  let all := digits_of_Z c in
  repr_layout (strip_trailing_zeros all) (x + Z.of_nat (String.length all)).

Definition sign_text (s : bool) : string := if s then "-" else EmptyString.

(** [str(x)], which an f-string field [{x}] renders: the shortest decimal that
    reads back as [x]. *)
Definition float_repr (x : float) : string :=
  match Prim2SF x with
  | S754_nan => "nan"
  | S754_infinity s => sign_text s ++ "inf"
  | S754_zero s => sign_text s ++ "0.0"
  | S754_finite s m e => sign_text s ++ repr_finite m e
  end.

Definition round_half_even (q : Q) : Z :=
  let c := Qfloor q in
  match Qcompare (Qminus q (inject_Z c)) (1 # 2) with
  | Lt => c
  | Gt => c + 1
  | Eq => if Z.even c then c else c + 1
  end.

(** [format(x, '.1f')]: the exact value of [x] rounded to one decimal place. *)
Definition format_1f (x : float) : string :=
  match Prim2SF x with
  | S754_nan => "nan"
  | S754_infinity s => sign_text s ++ "inf"
  | S754_zero s => sign_text s ++ "0.0"
  | S754_finite s m e =>
      let t := round_half_even (Qmult (Q_of_finite m e) (10 # 1)) in
      sign_text s ++ digits_of_Z (t / 10) ++ "." ++ digits_of_Z (t mod 10)
  end.

End PyFloat.

(** ** Binary64 floats as numbers *)

Module Binary64.

(** The order of two finite floats of the same sign: by exponent, then by
    mantissa. *)
Definition lex (e1 : Z) (m1 : positive) (e2 : Z) (m2 : positive) : comparison :=
  match Z.compare e1 e2 with
  | Lt => Lt
  | Gt => Gt
  | Eq => Pos.compare_cont Eq m1 m2
  end.

(** A float that is a number. *)
Definition number (x : float) : Prop := PrimFloat.is_nan x = false.

End Binary64.

(** ** Python values and exceptions *)

(** An exception, by the text [str(e)] gives for it. *)
Definition exn : Type := string.

Inductive pyresult (A : Type) : Type :=
| Returned (a : A)
| Raised (e : exn).

Arguments Returned {A} a.
Arguments Raised {A} e.

(** A cell of a data frame: the script builds integer and float cells. *)
Inductive Cell : Type :=
| CInt (z : Z)
| CFloat (x : float).

(** A [pandas.DataFrame] built from a dict of columns: the columns in the
    order of the dict, each with its rows. *)
Definition DataFrame : Type := list (string * list Cell).

(** ** [numpy.max] over a one-dimensional float array *)

Module Numpy.

(** The reduction step of [np.max]: a NaN on either side is the result. *)
Definition maximum (a b : float) : float :=
  if PrimFloat.is_nan a then a else if PrimFloat.ltb b a then a else b.

Definition max (a : list float) : pyresult float :=
  match a with
  | [] => Raised "zero-size array to reduction operation maximum which has no identity"
  | x :: rest => Returned (fold_left maximum rest x)
  end.

End Numpy.

(** ** Calls the script makes, in the order it makes them *)

Inductive Event : Type :=
| StMarkdown (body : string)
| StWarning (body : string)
| StDownloadButton (label data file_name mime : string)
| StMap (data : DataFrame)
| GeocodeCall (query : string)
| JoblibLoad (path : string)
| ClfPredict (X : DataFrame)
| ClfPredictProba (X : DataFrame).

(** A run of a piece of the script: the events so far, and either the value
    it produced or the exception that ended it. *)
Definition Script (A : Type) : Type := list Event * pyresult A.

Definition ret {A : Type} (a : A) : Script A := ([], Returned a).

Definition bind {A B : Type} (m : Script A) (k : A -> Script B) : Script B :=
  match m with
  | (t, Returned a) => let (t', r) := k a in ((t ++ t')%list, r)
  | (t, Raised e) => (t, Raised e)
  end.

Definition emit (ev : Event) : Script unit := ([ev], Returned tt).

(** A call to a collaborator: recorded, then its result or its exception. *)
Definition call {A : Type} (ev : Event) (r : pyresult A) : Script A := ([ev], r).

Definition lift {A : Type} (r : pyresult A) : Script A := ([], r).

(** [try: body / except Exception as e: handler e]. *)
Definition try_except {A : Type} (body : Script A) (handler : exn -> Script A) : Script A :=
  match body with
  | (t, Raised e) => let (t', r) := handler e in ((t ++ t')%list, r)
  | (t, Returned a) => (t, Returned a)
  end.

Declare Scope script_scope.
Delimit Scope script_scope with script.
Notation "x <- m ;; k" := (bind m (fun x => k))
  (at level 61, m at next level, right associativity) : script_scope.
Notation "' pat <- m ;; k" := (bind m (fun x => match x with pat => k end))
  (at level 61, pat pattern, m at next level, right associativity) : script_scope.
Notation "m ;; k" := (bind m (fun _ => k))
  (at level 61, right associativity) : script_scope.

Definition trace {A : Type} (m : Script A) : list Event := fst m.
Definition outcome {A : Type} (m : Script A) : pyresult A := snd m.

(** ** The script *)

Module App.

Definition MODEL_PATH : string := "anemia_model.pkl".

(** *** What the script reads *)

Inductive LocationMode : Type := CountryCity | LatitudeLongitude.

(** The values of the input widgets.  [sex] is one of the select box's options
    ['M', 'F']; the number inputs are floats within the widgets' bounds; the
    text input is read in Country/City mode only and the two coordinate
    inputs in Latitude/Longitude mode only. *)
Record Form : Type := {
  sex : string;
  red_pixel : float;
  hb : float;
  green_pixel : float;
  blue_pixel : float;
  location_mode : LocationMode;
  location_entry : string;
  latitude_entry : float;
  longitude_entry : float;
  predict_btn : bool
}.

(** A [geopy.Location]: the script reads its two coordinates. *)
Record Location : Type := {
  loc_latitude : float;
  loc_longitude : float
}.

(** The unpickled model: [predict X] stands for [clf.predict(X)[0]] and
    [predict_proba], when the object has the attribute, for
    [clf.predict_proba(X)[0]]. *)
Record Classifier : Type := {
  predict : DataFrame -> pyresult Z;
  predict_proba : option (DataFrame -> pyresult (list float))
}.

(** The collaborators: [geolocator.geocode], which returns a location or
    [None] or raises, and [joblib.load]. *)
Record World : Type := {
  geocode : string -> pyresult (option Location);
  load : string -> pyresult Classifier
}.

(** *** Lines 113-133: the location *)

Definition truthy (s : string) : bool :=
  match s with
  | EmptyString => false
  | String _ _ => true
  end.

Definition warning_not_found : string :=
  "Could not find the location. Please check your input.".

Definition warning_geocoding (e : exn) : string := "Geocoding error: " ++ e.

(** The text of the location field as the rest of the script sees it. *)
Definition location_text (f : Form) : string :=
  match location_mode f with
  | CountryCity => location_entry f
  | LatitudeLongitude => EmptyString
  end.

Definition locate (w : World) (f : Form) : Script (option float * option float) :=
  (match location_mode f with
   | CountryCity =>
       if truthy (location_entry f) then
         try_except
           (location <- call (GeocodeCall (location_entry f)) (geocode w (location_entry f)) ;;
            match location with
            | Some l => ret (Some (loc_latitude l), Some (loc_longitude l))
            | None => emit (StWarning warning_not_found) ;; ret (None, None)
            end)
           (fun e => emit (StWarning (warning_geocoding e)) ;; ret (None, None))
       else ret (None, None)
   | LatitudeLongitude =>
       ret (Some (latitude_entry f), Some (longitude_entry f))
   end)%script.

(** *** Lines 135-151: the record for the classifier and the input summary *)

Definition sex_encoded (f : Form) : Z := if String.eqb (sex f) "M" then 0 else 1.

Definition input_data (f : Form) : DataFrame :=
  [ ("Sex", [CInt (sex_encoded f)]);
    ("%Red Pixel", [CFloat (red_pixel f)]);
    ("%Green pixel", [CFloat (green_pixel f)]);
    ("%Blue pixel", [CFloat (blue_pixel f)]);
    ("Hb", [CFloat (hb f)]) ].

Definition summary (f : Form) : string :=
  "<div " ++ attr "class" "user-summary" ++ "><b>📝 Your Input Summary:</b><br>" ++
  "Sex: <b>" ++ sex f ++ "</b> | %Red Pixel: <b>" ++ PyFloat.float_repr (red_pixel f) ++
  "</b> | %Green pixel: <b>" ++ PyFloat.float_repr (green_pixel f) ++
  "</b> | %Blue pixel: <b>" ++ PyFloat.float_repr (blue_pixel f) ++
  "</b> | Hb: <b>" ++ PyFloat.float_repr (hb f) ++ "</b></div>".

Definition location_line (f : Form) (latitude longitude : float) : string :=
  "<b>Location:</b> " ++
  match location_mode f with
  | CountryCity => location_text f
  | LatitudeLongitude =>
      "(" ++ PyFloat.float_repr latitude ++ ", " ++ PyFloat.float_repr longitude ++ ")"
  end.

(** *** Lines 166-181: the health tips *)

Definition tip_iron : string := "Increase iron-rich foods (spinach, beans, red meat).".
Definition tip_hydration : string :=
  "Stay hydrated; high green pixel may indicate plasma presence.".
Definition tip_doctor : string := "Consult your doctor for supplements if needed.".
Definition tip_checkups : string := "Get regular checkups.".
Definition tip_diet : string := "Maintain a balanced diet.".
Definition tip_exercise : string := "Exercise regularly.".
Definition tip_sleep : string := "Get enough sleep.".
Definition tip_health_checkups : string := "Have regular health checkups.".

Definition link_who : string :=
  "[Learn more about anaemia (WHO)](https://www.who.int/news-room/fact-sheets/detail/anaemia)".
Definition link_general : string :=
  "[General health tips (Mayo Clinic)](https://www.mayoclinic.org/healthy-lifestyle)".

(** [tips.append(x)]. *)
Definition append (tips : list string) (x : string) : list string := (tips ++ [x])%list.

(** The tip list and the link, as the script leaves them in [tips] and
    [learn_more]. *)
Definition health_tips (f : Form) (prediction : Z) : list string * string :=
  let tips := [] in
  let learn_more := EmptyString in
  let tips := if PrimFloat.ltb (hb f) 12 then append tips tip_iron else tips in
  let tips := if PrimFloat.ltb 40 (green_pixel f) then append tips tip_hydration else tips in
  if Z.eqb prediction 1 then
    let tips := append tips tip_doctor in
    let tips := append tips tip_checkups in
    let learn_more := link_who in
    (tips, learn_more)
  else
    let tips := append tips tip_diet in
    let tips := append tips tip_exercise in
    let tips := append tips tip_sleep in
    let tips := append tips tip_health_checkups in
    let learn_more := link_general in
    (tips, learn_more).

(** *** Lines 183-194: what is rendered for a prediction *)

(** [{confidence*100:.1f}%]. *)
Definition percent (confidence : float) : string :=
  PyFloat.format_1f (PrimFloat.mul confidence 100) ++ "%".

Definition headline_anaemic : string :=
  "<span " ++ attr "style" "font-size:1.5em; color:#B22222;" ++
  ">🩸 <b>Prediction: Anaemic</b></span>".

Definition headline_not_anaemic : string :=
  "<span " ++ attr "style" "font-size:1.5em; color:#228B22;" ++
  ">🟢 <b>Prediction: Not Anaemic</b></span>".

Definition confidence_anaemic (confidence : float) : string :=
  "<span " ++ attr "style" "color:#B22222;" ++ ">Confidence: <b>" ++
  percent confidence ++ "</b></span>".

Definition confidence_not_anaemic (confidence : float) : string :=
  "<span " ++ attr "style" "color:#228B22;" ++ ">Confidence: <b>" ++
  percent confidence ++ "</b></span>".

Definition advice_anaemic : string :=
  "<span " ++ attr "style" "color:#B22222;font-size:1.2em;" ++
  ">The patient is likely <b>Anaemic</b>. Please consult a healthcare professional for further advice.</span>".

Definition advice_not_anaemic : string :=
  "<span " ++ attr "style" "color:#228B22;font-size:1.2em;" ++
  ">The patient is likely <b>Not Anaemic</b>. Keep up the healthy habits!</span>".

Definition feedback (prediction : Z) (confidence : option float) : Script unit :=
  (if Z.eqb prediction 1 then
     emit (StMarkdown headline_anaemic) ;;
     match confidence with
     | Some c => emit (StMarkdown (confidence_anaemic c))
     | None => ret tt
     end ;;
     emit (StMarkdown advice_anaemic)
   else
     emit (StMarkdown headline_not_anaemic) ;;
     match confidence with
     | Some c => emit (StMarkdown (confidence_not_anaemic c))
     | None => ret tt
     end ;;
     emit (StMarkdown advice_not_anaemic))%script.

Definition tips_block (tips : list string) (learn_more : string) : string :=
  "<div " ++ attr "class" "health-tips" ++ "><b>💡 Personalized Health Tips:</b><ul>" ++
  String.concat EmptyString (map (fun tip => "<li>" ++ tip ++ "</li>") tips) ++
  "</ul>" ++ learn_more ++ "</div>".

(** *** Lines 196-211: the report *)

(** An [io.StringIO]: what has been written to it so far. *)
Definition StringIO : Type := string.

Definition write (buffer : StringIO) (s : string) : StringIO := buffer ++ s.

Definition getvalue (buffer : StringIO) : string := buffer.

Definition write_report (f : Form) (prediction : Z) (confidence : option float)
    (tips : list string) (learn_more : string) : StringIO :=
  let report := EmptyString in
  let report := write report ("Anaemia Prediction Report" ++ nl) in
  let report := write report ("========================" ++ nl) in
  let report := write report ("Sex: " ++ sex f ++ nl) in
  let report := write report ("%Red Pixel: " ++ PyFloat.float_repr (red_pixel f) ++ nl) in
  let report := write report ("%Green pixel: " ++ PyFloat.float_repr (green_pixel f) ++ nl) in
  let report := write report ("%Blue pixel: " ++ PyFloat.float_repr (blue_pixel f) ++ nl) in
  let report := write report ("Hemoglobin (Hb): " ++ PyFloat.float_repr (hb f) ++ nl) in
  let report :=
    write report
      ("Prediction: " ++ (if Z.eqb prediction 1 then "Anaemic" else "Not Anaemic") ++ nl) in
  let report :=
    match confidence with
    | Some c => write report ("Confidence: " ++ percent c ++ nl)
    | None => report
    end in
  let report := write report (nl ++ "Health Tips:" ++ nl) in
  let report := fold_left (fun report tip => write report ("- " ++ tip ++ nl)) tips report in
  let report := write report (nl ++ learn_more ++ nl) in
  report.

(** *** Lines 157-219: a press of the button *)

(** The variables a prediction leaves behind. *)
Record Prediction : Type := {
  prediction : Z;
  confidence : option float;
  tips : list string;
  learn_more : string;
  report : string
}.

Definition map_section (latitude longitude : option float) : Script unit :=
  (match latitude, longitude with
   | Some la, Some lo =>
       emit (StMarkdown ("<div " ++ attr "class" "map-card" ++ ">")) ;;
       emit (StMarkdown "#### 🗺️ Patient Location Map") ;;
       emit (StMarkdown ("<span " ++ attr "style" "color:#1e88e5;" ++
               ">This map shows the location you entered for the patient. You can use this to visualize where the prediction was made.</span>")) ;;
       emit (StMap [("lat", [CFloat la]); ("lon", [CFloat lo])]) ;;
       emit (StMarkdown "</div>")
   | _, _ => ret tt
   end)%script.

(** Lines 159-164: the model is loaded and asked for the label and, when it
    can give one, for the probabilities, whose maximum is the confidence. *)
Definition consult (w : World) (f : Form) : Script (Z * option float) :=
  (clf <- call (JoblibLoad MODEL_PATH) (load w MODEL_PATH) ;;
   prediction <- call (ClfPredict (input_data f)) (predict clf (input_data f)) ;;
   match predict_proba clf with
   | Some proba_of =>
       proba <- call (ClfPredictProba (input_data f)) (proba_of (input_data f)) ;;
       confidence <- lift (Numpy.max proba) ;;
       ret (prediction, Some confidence)
   | None => ret (prediction, None)
   end)%script.

Definition predict_section (w : World) (f : Form) (latitude longitude : option float)
    : Script Prediction :=
  ('(prediction, confidence) <- consult w f ;;
   let '(tips, learn_more) := health_tips f prediction in
   feedback prediction confidence ;;
   emit (StMarkdown (tips_block tips learn_more)) ;;
   let report := write_report f prediction confidence tips learn_more in
   emit (StDownloadButton "⬇️ Download Report" (getvalue report)
           "anaemia_report.txt" "text/plain") ;;
   map_section latitude longitude ;;
   ret {| prediction := prediction; confidence := confidence; tips := tips;
          learn_more := learn_more; report := getvalue report |})%script.

(** *** Lines 113-222: the script from the location section on *)

Definition footer : string :=
  "<div " ++ attr "class" "footer" ++
  ">Made with by Brian Michael | Powered by Streamlit</div>".

(** The variables a run leaves behind: the coordinates, and what the
    prediction left when the button was pressed. *)
Record Run : Type := {
  latitude : option float;
  longitude : option float;
  predicted : option Prediction
}.

(** Lines 135-222, which read the coordinates the location section left. *)
Definition after_location (w : World) (f : Form) (latitude longitude : option float)
    : Script Run :=
  (emit (StMarkdown (summary f)) ;;
   match latitude, longitude with
   | Some la, Some lo => emit (StMarkdown (location_line f la lo))
   | _, _ => ret tt
   end ;;
   predicted <-
     (if predict_btn f then
        p <- predict_section w f latitude longitude ;; ret (Some p)
      else ret None) ;;
   emit (StMarkdown footer) ;;
   ret {| latitude := latitude; longitude := longitude; predicted := predicted |})%script.

Definition run (w : World) (f : Form) : Script Run :=
  (emit (StMarkdown "---") ;;
   emit (StMarkdown "### 📍 Patient Location") ;;
   '(latitude, longitude) <- locate w f ;;
   after_location w f latitude longitude)%script.

End App.

(** ** The behaviour the specification describes

    Second definitions, after the words of the specification, against which
    the script's own are compared. *)

Module Spec.

Import App.

(** The tips of the two threshold rules, in their fixed order. *)
Definition threshold_tips (f : Form) : list string :=
  ((if PrimFloat.ltb (hb f) 12 then [tip_iron] else []) ++
   (if PrimFloat.ltb 40 (green_pixel f) then [tip_hydration] else []))%list.

(** The tips that depend on the label alone. *)
Definition label_tips (prediction : Z) : list string :=
  if Z.eqb prediction 1 then [tip_doctor; tip_checkups]
  else [tip_diet; tip_exercise; tip_sleep; tip_health_checkups].

Definition reference_link (prediction : Z) : string :=
  if Z.eqb prediction 1 then link_who else link_general.

Definition label (prediction : Z) : string :=
  if Z.eqb prediction 1 then "Anaemic" else "Not Anaemic".

(** A text document as its lines, each ended by a newline. *)
Fixpoint unlines (lines : list string) : string :=
  match lines with
  | [] => EmptyString
  | l :: rest => l ++ nl ++ unlines rest
  end.

(** The lines of a text document, read back. *)
Fixpoint lines_of (s : string) : list string :=
  match s with
  | EmptyString => []
  | String c rest =>
      if Ascii.eqb c "010" then EmptyString :: lines_of rest
      else match lines_of rest with
           | [] => [String c EmptyString]
           | l :: ls => String c l :: ls
           end
  end.

Definition field_lines (f : Form) : list string :=
  [ "Sex: " ++ sex f;
    "%Red Pixel: " ++ PyFloat.float_repr (red_pixel f);
    "%Green pixel: " ++ PyFloat.float_repr (green_pixel f);
    "%Blue pixel: " ++ PyFloat.float_repr (blue_pixel f);
    "Hemoglobin (Hb): " ++ PyFloat.float_repr (hb f) ].

Definition confidence_lines (confidence : option float) : list string :=
  match confidence with
  | Some c => ["Confidence: " ++ percent c]
  | None => []
  end.

Definition tip_lines (tips : list string) : list string :=
  map (fun tip => "- " ++ tip) tips.

Definition prediction_line (prediction : Z) : string :=
  "Prediction: " ++ label prediction.

(** The report: a title and its rule, the input fields, the label, the
    confidence when there is one, the tips and the reference link. *)
Definition report_lines (f : Form) (pr : Prediction) : list string :=
  (["Anaemia Prediction Report"; "========================"] ++
   field_lines f ++
   [prediction_line (prediction pr)] ++
   confidence_lines (confidence pr) ++
   [EmptyString; "Health Tips:"] ++
   tip_lines (tips pr) ++
   [EmptyString; learn_more pr])%list.

End Spec.

(** ** Reading a trace *)

Definition is_geocode_call (ev : Event) : bool :=
  match ev with GeocodeCall _ => true | _ => false end.

Definition is_warning (ev : Event) : bool :=
  match ev with StWarning _ => true | _ => false end.

Definition is_map (ev : Event) : bool :=
  match ev with StMap _ => true | _ => false end.

(** The calls to the model and the download button: what a run does with the
    measurements, apart from rendering. *)
Definition is_model_or_download (ev : Event) : bool :=
  match ev with
  | JoblibLoad _ | ClfPredict _ | ClfPredictProba _ | StDownloadButton _ _ _ _ => true
  | _ => false
  end.

(** Whether a rendered element is one of the two confidence lines. *)
Definition is_confidence_element (ev : Event) : bool :=
  match ev with
  | StMarkdown body =>
      String.prefix ("<span " ++ attr "style" "color:#B22222;" ++ ">Confidence: ") body ||
      String.prefix ("<span " ++ attr "style" "color:#228B22;" ++ ">Confidence: ") body
  | _ => false
  end.

(** The record a call to the model was given, if the event is such a call. *)
Definition model_input (ev : Event) : option DataFrame :=
  match ev with
  | ClfPredict X | ClfPredictProba X => Some X
  | _ => None
  end.

(** ** What a run is made of *)

Module Shape.

Import App.

(** The variables a press of the button leaves, from the label and the
    confidence the model gave. *)
Definition assemble (f : Form) (p : Z) (c : option float) : Prediction :=
  let '(tips, learn_more) := health_tips f p in
  {| prediction := p; confidence := c; tips := tips; learn_more := learn_more;
     report := getvalue (write_report f p c tips learn_more) |}.

Definition download (pr : Prediction) : Event :=
  StDownloadButton "⬇️ Download Report" (report pr) "anaemia_report.txt" "text/plain".

(** What is rendered once the model has answered. *)
Definition rendering (f : Form) (p : Z) (c : option float)
    (latitude longitude : option float) : list Event :=
  (trace (feedback p c) ++
   [StMarkdown (tips_block (tips (assemble f p c)) (learn_more (assemble f p c)));
    download (assemble f p c)] ++
   trace (map_section latitude longitude))%list.

Definition location_element (f : Form) (latitude longitude : option float) : list Event :=
  match latitude, longitude with
  | Some la, Some lo => [StMarkdown (location_line f la lo)]
  | _, _ => []
  end.

Definition heading : list Event :=
  [StMarkdown "---"; StMarkdown "### 📍 Patient Location"].

(** The coordinates the location section leaves. *)
Definition coordinates (w : World) (f : Form) : option float * option float :=
  match outcome (locate w f) with
  | Returned c => c
  | Raised _ => (None, None)
  end.

(** A selector that holds of no event after the location section. *)
Definition location_only (sel : Event -> bool) : Prop :=
  forall ev, sel ev = true -> is_geocode_call ev = true \/ is_warning ev = true.

(** Whether a line of the report starts with the word Confidence. *)
Definition starts_with_confidence (l : string) : bool := String.prefix "Confidence" l.

(** Two forms with the same measurements and the same state of the button:
    they may differ in the three location fields and the location mode. *)
Record same_measurements (f1 f2 : Form) : Prop := {
  same_sex : sex f1 = sex f2;
  same_red : red_pixel f1 = red_pixel f2;
  same_hb : hb f1 = hb f2;
  same_green : green_pixel f1 = green_pixel f2;
  same_blue : blue_pixel f1 = blue_pixel f2;
  same_button : predict_btn f1 = predict_btn f2
}.

(** What a run leaves of the prediction: the variables of [Prediction], or
    the exception that ended the run. *)
Definition prediction_view (m : Script Run) : pyresult (option Prediction) :=
  match outcome m with
  | Returned r => Returned (predicted r)
  | Raised e => Raised e
  end.

(** The rest of the flow with no coordinates: no map is drawn; only the model
    can end the run; an idle run completes; and when the button is pressed
    and the model answers, the run completes with the prediction, its tips
    and its report, which are rendered and offered for download. *)
Definition proceeds_without_coordinates (w : World) (f : Form) : Prop :=
  filter is_map (trace (run w f)) = [] /\
  (forall e, outcome (run w f) = Raised e ->
     predict_btn f = true /\ outcome (consult w f) = Raised e) /\
  (predict_btn f = false ->
     outcome (run w f) =
     Returned {| latitude := None; longitude := None; predicted := None |}) /\
  (forall p c, predict_btn f = true -> outcome (consult w f) = Returned (p, c) ->
     exists pr,
       outcome (run w f) =
       Returned {| latitude := None; longitude := None; predicted := Some pr |} /\
       prediction pr = p /\ confidence pr = c /\
       (tips pr, learn_more pr) = health_tips f p /\
       report pr = write_report f p c (tips pr) (learn_more pr) /\
       In (StMarkdown (tips_block (tips pr) (learn_more pr))) (trace (run w f)) /\
       In (download pr) (trace (run w f))).

End Shape.

(** ** Sample runs *)

Module Sample.

Import App Shape.

Definition form : Form := {|
  sex := "F";
  red_pixel := 45%float;
  hb := 10%float;
  green_pixel := 30%float;
  blue_pixel := 25%float;
  location_mode := CountryCity;
  location_entry := "Nairobi, Kenya";
  latitude_entry := 0%float;
  longitude_entry := 0%float;
  predict_btn := true
|}.

(** A model with probabilities, which finds the sample anaemic at 0.82. *)
Definition model : Classifier := {|
  predict := fun _ => Returned 1;
  predict_proba := Some (fun _ => Returned [0.18%float; 0.82%float])
|}.

(** A model without [predict_proba]. *)
Definition bare_model : Classifier := {|
  predict := fun _ => Returned 0;
  predict_proba := None
|}.

Definition nairobi : Location := {|
  loc_latitude := (-1.2832533)%float;
  loc_longitude := 36.8172449%float
|}.

Definition world : World := {|
  geocode := fun _ => Returned (Some nairobi);
  load := fun _ => Returned model
|}.

Definition bare_world : World := {|
  geocode := fun _ => Returned (Some nairobi);
  load := fun _ => Returned bare_model
|}.

(** The geocoder is down, or knows no such place. *)
Definition offline_world : World := {|
  geocode := fun _ => Raised "Service timed out";
  load := fun _ => Returned model
|}.

Definition nowhere_world : World := {|
  geocode := fun _ => Returned None;
  load := fun _ => Returned model
|}.

Definition form_at_origin : Form := {|
  sex := "M";
  red_pixel := 45%float;
  hb := 13.5%float;
  green_pixel := 41%float;
  blue_pixel := 25%float;
  location_mode := LatitudeLongitude;
  location_entry := EmptyString;
  latitude_entry := 0%float;
  longitude_entry := 0%float;
  predict_btn := true
|}.

Definition form_without_location : Form := {|
  sex := "M";
  red_pixel := 45%float;
  hb := 13.5%float;
  green_pixel := 41%float;
  blue_pixel := 25%float;
  location_mode := CountryCity;
  location_entry := EmptyString;
  latitude_entry := 0%float;
  longitude_entry := 0%float;
  predict_btn := true
|}.

(** The sample form with its location given as coordinates instead. *)
Definition form_by_coordinates : Form := {|
  sex := "F";
  red_pixel := 45%float;
  hb := 10%float;
  green_pixel := 30%float;
  blue_pixel := 25%float;
  location_mode := LatitudeLongitude;
  location_entry := EmptyString;
  latitude_entry := (-1.2832533)%float;
  longitude_entry := 36.8172449%float;
  predict_btn := true
|}.

(** What the run of [form] in [world] leaves. *)
Definition prediction : Prediction := assemble form 1 (Some 0.82%float).

Definition result : Run := {|
  latitude := Some (loc_latitude nairobi);
  longitude := Some (loc_longitude nairobi);
  predicted := Some prediction
|}.

(** What the run of [form_at_origin] in [bare_world] leaves. *)
Definition prediction_at_origin : Prediction := assemble form_at_origin 0 None.

Definition result_at_origin : Run := {|
  latitude := Some 0%float;
  longitude := Some 0%float;
  predicted := Some prediction_at_origin
|}.

End Sample.

(** ** More readings of a run *)

Module Observe.

Import App Shape.

(** A rendered markdown element with exactly this text. *)
Definition markdown_is (text : string) (ev : Event) : bool :=
  match ev with
  | StMarkdown body => String.eqb body text
  | _ => false
  end.

(** One of the two headlines that state the label. *)
Definition is_headline (ev : Event) : bool :=
  markdown_is headline_anaemic ev || markdown_is headline_not_anaemic ev.

Definition is_footer (ev : Event) : bool := markdown_is footer ev.

(** The element that shows the location under the input summary. *)
Definition is_location_line (ev : Event) : bool :=
  match ev with
  | StMarkdown body => String.prefix "<b>Location:</b> " body
  | _ => false
  end.

Definition is_download (ev : Event) : bool :=
  match ev with StDownloadButton _ _ _ _ => true | _ => false end.

Definition is_model_call (ev : Event) : bool :=
  match ev with
  | JoblibLoad _ | ClfPredict _ | ClfPredictProba _ => true
  | _ => false
  end.

(** Whether the location section reaches the geocoder: Country/City mode
    with a text that is not empty. *)
Definition geocoder_asked (f : Form) : bool :=
  match location_mode f with
  | CountryCity => truthy (location_entry f)
  | LatitudeLongitude => false
  end.

(** Whether the button was pressed and the model gave its answer. *)
Definition answered (w : World) (f : Form) : bool :=
  predict_btn f &&
  match outcome (consult w f) with
  | Returned _ => true
  | Raised _ => false
  end.

(** The calls a pressed button leads to, each made only if the one before
    returned, and the download button after the last of them. *)
Definition model_steps (w : World) (f : Form) : list Event :=
  JoblibLoad MODEL_PATH ::
  match load w MODEL_PATH with
  | Raised _ => []
  | Returned clf =>
      ClfPredict (input_data f) ::
      match predict clf (input_data f) with
      | Raised _ => []
      | Returned p =>
          match predict_proba clf with
          | None => [download (assemble f p None)]
          | Some proba_of =>
              ClfPredictProba (input_data f) ::
              match proba_of (input_data f) with
              | Raised _ => []
              | Returned proba =>
                  match Numpy.max proba with
                  | Raised _ => []
                  | Returned c => [download (assemble f p (Some c))]
                  end
              end
          end
      end
  end.

(** The exception a failing consultation ends with: that of the first call
    that raised, or the one [np.max] raises on an empty row. *)
Definition model_failure (w : World) (f : Form) (e : exn) : Prop :=
  load w MODEL_PATH = Raised e \/
  exists clf,
    load w MODEL_PATH = Returned clf /\
    (predict clf (input_data f) = Raised e \/
     exists p proba_of,
       predict clf (input_data f) = Returned p /\
       predict_proba clf = Some proba_of /\
       (proba_of (input_data f) = Raised e \/
        (proba_of (input_data f) = Returned [] /\
         e = "zero-size array to reduction operation maximum which has no identity"))).


(** A text that holds no newline. *)
Fixpoint one_line (s : string) : bool :=
  match s with
  | EmptyString => true
  | String c rest => negb (Ascii.eqb c "010") && one_line rest
  end.

End Observe.

(** ** Sample runs that go wrong *)

Module Scenario.

Import App Shape.

(** The model file is missing. *)
Definition no_model_world : World := {|
  geocode := fun _ => Returned (Some Sample.nairobi);
  load := fun _ => Raised "No such file or directory: 'anemia_model.pkl'"
|}.

(** A model whose probabilities come back as an empty row. *)
Definition hollow_model : Classifier := {|
  predict := fun _ => Returned 1;
  predict_proba := Some (fun _ => Returned [])
|}.

Definition hollow_world : World := {|
  geocode := fun _ => Returned (Some Sample.nairobi);
  load := fun _ => Returned hollow_model
|}.

End Scenario.

(** ** The order of binary64 floats

    The primitive comparisons are specified by [SFcompare], which orders the
    finite floats of one sign by exponent and then by mantissa. *)

Module FloatOrder.

Import Binary64.

Lemma lex_antisym e1 m1 e2 m2 : lex e2 m2 e1 m1 = CompOpp (lex e1 m1 e2 m2).
Proof.
  unfold lex. rewrite (Z.compare_antisym e1 e2).
  destruct (Z.compare e1 e2); simpl; auto.
  change (Pos.compare_cont Eq m2 m1) with (Pos.compare m2 m1).
  change (Pos.compare_cont Eq m1 m2) with (Pos.compare m1 m2).
  apply Pos.compare_antisym.
Qed.

Lemma lex_refl e m : lex e m e m = Eq.
Proof.
  unfold lex. rewrite Z.compare_refl.
  change (Pos.compare_cont Eq m m) with (Pos.compare m m).
  apply Pos.compare_refl.
Qed.

Lemma lex_Lt e1 m1 e2 m2 :
  lex e1 m1 e2 m2 = Lt <-> (e1 < e2 \/ (e1 = e2 /\ (m1 < m2)%positive)).
Proof.
  unfold lex. change (Pos.compare_cont Eq m1 m2) with (Pos.compare m1 m2).
  destruct (Z.compare_spec e1 e2); destruct (Pos.compare_spec m1 m2);
    split; intros; try discriminate; try reflexivity; lia.
Qed.

Lemma lex_Eq e1 m1 e2 m2 : lex e1 m1 e2 m2 = Eq <-> (e1 = e2 /\ m1 = m2).
Proof.
  unfold lex. change (Pos.compare_cont Eq m1 m2) with (Pos.compare m1 m2).
  destruct (Z.compare_spec e1 e2); destruct (Pos.compare_spec m1 m2);
    split; intros; try discriminate; try reflexivity; auto; lia.
Qed.

Lemma lex_Gt e1 m1 e2 m2 :
  lex e1 m1 e2 m2 = Gt <-> (e2 < e1 \/ (e1 = e2 /\ (m2 < m1)%positive)).
Proof.
  unfold lex. change (Pos.compare_cont Eq m1 m2) with (Pos.compare m1 m2).
  destruct (Z.compare_spec e1 e2); destruct (Pos.compare_spec m1 m2);
    split; intros; try discriminate; try reflexivity; lia.
Qed.

Lemma SFcompare_finite s1 m1 e1 s2 m2 e2 :
  SFcompare (S754_finite s1 m1 e1) (S754_finite s2 m2 e2) =
  Some match s1, s2 with
       | true, false => Lt
       | false, true => Gt
       | false, false => lex e1 m1 e2 m2
       | true, true => CompOpp (lex e1 m1 e2 m2)
       end.
Proof.
  unfold lex. destruct s1, s2; simpl; try reflexivity.
  destruct (Z.compare e1 e2); reflexivity.
Qed.

Ltac by_signs :=
  simpl; repeat match goal with s : bool |- _ => destruct s end; simpl.

Lemma SFleb_trans x y z :
  SFleb x y = true -> SFleb y z = true -> SFleb x z = true.
Proof.
  unfold SFleb.
  destruct x as [sx|sx| |sx mx ex], y as [sy|sy| |sy my ey], z as [sz|sz| |sz mz ez];
    rewrite ?SFcompare_finite;
    try (by_signs; try discriminate; try reflexivity; auto; fail).
  destruct (lex ex mx ey my) eqn:A; destruct (lex ey my ez mz) eqn:B;
    destruct (lex ex mx ez mz) eqn:C;
    destruct sx, sy, sz; simpl; try discriminate; auto;
    rewrite ?lex_Lt, ?lex_Eq, ?lex_Gt in *; intros; lia.
Qed.

Lemma SFcompare_antisym x y c :
  SFcompare x y = Some c -> SFcompare y x = Some (CompOpp c).
Proof.
  destruct x as [sx|sx| |sx mx ex], y as [sy|sy| |sy my ey];
    rewrite ?SFcompare_finite;
    try (by_signs; intros H; inversion H; reflexivity).
  rewrite (lex_antisym ex mx ey my).
  destruct sx, sy; intros H; inversion H; reflexivity.
Qed.

Lemma SFcompare_refl x : x <> S754_nan -> SFcompare x x = Some Eq.
Proof.
  destruct x as [s|s| |s m e]; intros H; try congruence.
  - reflexivity.
  - destruct s; reflexivity.
  - rewrite SFcompare_finite, lex_refl. destruct s; reflexivity.
Qed.

Lemma SFcompare_total x y :
  x <> S754_nan -> y <> S754_nan -> exists c, SFcompare x y = Some c.
Proof.
  destruct x, y; intros; try congruence; simpl; eauto.
Qed.

Lemma is_nan_spec x : PrimFloat.is_nan x = false <-> Prim2SF x <> S754_nan.
Proof.
  unfold PrimFloat.is_nan. rewrite eqb_spec. unfold SFeqb. split.
  - intros H E. rewrite E in H. discriminate.
  - intros H. rewrite SFcompare_refl by assumption. reflexivity.
Qed.

(** [a <= b] excludes [b < a]. *)
Lemma leb_ltb_false a b : PrimFloat.leb a b = true -> PrimFloat.ltb b a = false.
Proof.
  rewrite leb_spec, ltb_spec. unfold SFleb, SFltb.
  destruct (SFcompare (Prim2SF a) (Prim2SF b)) as [c|] eqn:E; try discriminate.
  rewrite (SFcompare_antisym _ _ _ E). destruct c; simpl; congruence.
Qed.

Lemma ltb_leb a b : PrimFloat.ltb a b = true -> PrimFloat.leb a b = true.
Proof.
  rewrite leb_spec, ltb_spec. unfold SFleb, SFltb.
  destruct (SFcompare (Prim2SF a) (Prim2SF b)) as [[]|]; congruence.
Qed.

(** Two numbers are comparable: when [b < a] fails, [a <= b]. *)
Lemma not_ltb_leb a b :
  PrimFloat.is_nan a = false -> PrimFloat.is_nan b = false ->
  PrimFloat.ltb b a = false -> PrimFloat.leb a b = true.
Proof.
  rewrite !is_nan_spec, leb_spec, ltb_spec. unfold SFleb, SFltb. intros Ha Hb.
  destruct (SFcompare_total _ _ Ha Hb) as [c E]. rewrite E.
  rewrite (SFcompare_antisym _ _ _ E). destruct c; simpl; congruence.
Qed.

Lemma leb_refl a : PrimFloat.is_nan a = false -> PrimFloat.leb a a = true.
Proof.
  rewrite is_nan_spec, leb_spec. unfold SFleb. intros H.
  now rewrite SFcompare_refl.
Qed.

Lemma leb_trans a b c :
  PrimFloat.leb a b = true -> PrimFloat.leb b c = true -> PrimFloat.leb a c = true.
Proof. rewrite !leb_spec. apply SFleb_trans. Qed.

End FloatOrder.

(** ** [numpy.max] is a maximum *)

Module NumpyFacts.

Import Binary64 FloatOrder.

Lemma maximum_cases a b :
  number a -> number b ->
  (Numpy.maximum a b = a \/ Numpy.maximum a b = b) /\
  PrimFloat.leb a (Numpy.maximum a b) = true /\
  PrimFloat.leb b (Numpy.maximum a b) = true.
Proof.
  unfold number, Numpy.maximum. intros Ha Hb. rewrite Ha.
  destruct (PrimFloat.ltb b a) eqn:E.
  - repeat split; auto using leb_refl, ltb_leb.
  - repeat split; auto using leb_refl, not_ltb_leb.
Qed.

Lemma fold_maximum rest : forall x,
  number x -> Forall number rest ->
  let c := fold_left Numpy.maximum rest x in
  number c /\ In c (x :: rest) /\
  Forall (fun y => PrimFloat.leb y c = true) (x :: rest).
Proof.
  induction rest as [|y rest IH]; intros x Hx Hrest; simpl.
  - repeat split; auto using leb_refl.
  - inversion Hrest as [|? ? Hy Hrest']; subst.
    destruct (maximum_cases x y Hx Hy) as (Hsel & Hxm & Hym).
    assert (Hm : number (Numpy.maximum x y)) by (destruct Hsel as [-> | ->]; assumption).
    destruct (IH _ Hm Hrest') as (Hc & Hin & Hall).
    inversion Hall as [|? ? Hmc Hrestc]; subst.
    split; [assumption|]. split.
    + simpl in Hin. destruct Hin as [Hin | Hin]; auto.
      rewrite <- Hin. destruct Hsel as [-> | ->]; auto.
    + constructor; [eapply leb_trans; eassumption|].
      constructor; [eapply leb_trans; eassumption|assumption].
Qed.

(** On an array of numbers, [np.max] returns one of them, and none of them is
    greater; on an empty array it raises. *)
Lemma max_spec proba :
  Forall number proba -> proba <> [] ->
  exists c, Numpy.max proba = Returned c /\ In c proba /\
            Forall (fun y => PrimFloat.leb y c = true) proba.
Proof.
  destruct proba as [|x rest]; intros H Hne; [congruence|].
  inversion H; subst. exists (fold_left Numpy.maximum rest x).
  destruct (fold_maximum rest x) as (_ & Hin & Hall); auto.
Qed.

Lemma max_returns proba : proba <> [] -> exists c, Numpy.max proba = Returned c.
Proof. destruct proba; [congruence|]. simpl. eauto. Qed.

End NumpyFacts.

(** ** Facts about scripts *)

Module ScriptFacts.

Lemma outcome_bind {A B : Type} (m : Script A) (k : A -> Script B) :
  outcome (bind m k) =
  match outcome m with
  | Returned a => outcome (k a)
  | Raised e => Raised e
  end.
Proof.
  destruct m as [t [a|e]]; simpl; [destruct (k a)|]; reflexivity.
Qed.

Lemma trace_bind {A B : Type} (m : Script A) (k : A -> Script B) :
  trace (bind m k) =
  (trace m ++ match outcome m with
              | Returned a => trace (k a)
              | Raised _ => []
              end)%list.
Proof.
  destruct m as [t [a|e]]; simpl; [destruct (k a); reflexivity|].
  now rewrite app_nil_r.
Qed.

Lemma outcome_emit ev : outcome (emit ev) = Returned tt.
Proof. reflexivity. Qed.

Lemma trace_emit ev : trace (emit ev) = [ev].
Proof. reflexivity. Qed.

End ScriptFacts.

(** ** Facts about the pieces of the script *)

Module AppFacts.

Import App Shape ScriptFacts.

(** *** The location section *)

Lemma locate_coordinates_entered w f :
  location_mode f = LatitudeLongitude ->
  locate w f = ([], Returned (Some (latitude_entry f), Some (longitude_entry f))).
Proof. unfold locate. intros ->. reflexivity. Qed.

Lemma locate_empty w f :
  location_mode f = CountryCity -> location_entry f = EmptyString ->
  locate w f = ([], Returned (None, None)).
Proof. unfold locate. intros -> ->. reflexivity. Qed.

Lemma locate_found w f l :
  location_mode f = CountryCity -> truthy (location_entry f) = true ->
  geocode w (location_entry f) = Returned (Some l) ->
  locate w f = ([GeocodeCall (location_entry f)],
                Returned (Some (loc_latitude l), Some (loc_longitude l))).
Proof. unfold locate. intros -> -> H. unfold call. rewrite H. reflexivity. Qed.

Lemma locate_not_found w f :
  location_mode f = CountryCity -> truthy (location_entry f) = true ->
  geocode w (location_entry f) = Returned None ->
  locate w f = ([GeocodeCall (location_entry f); StWarning warning_not_found],
                Returned (None, None)).
Proof. unfold locate. intros -> -> H. unfold call. rewrite H. reflexivity. Qed.

Lemma locate_error w f e :
  location_mode f = CountryCity -> truthy (location_entry f) = true ->
  geocode w (location_entry f) = Raised e ->
  locate w f = ([GeocodeCall (location_entry f); StWarning (warning_geocoding e)],
                Returned (None, None)).
Proof. unfold locate. intros -> -> H. unfold call. rewrite H. reflexivity. Qed.

Lemma truthy_false s : truthy s = false -> s = EmptyString.
Proof. destruct s; [reflexivity|discriminate]. Qed.

(** Nothing the geocoder does ends the run. *)
Lemma locate_returns w f : outcome (locate w f) = Returned (coordinates w f).
Proof.
  unfold coordinates.
  destruct (location_mode f) eqn:M.
  - destruct (truthy (location_entry f)) eqn:T.
    + destruct (geocode w (location_entry f)) as [[l|]|e] eqn:G.
      * now rewrite (locate_found w f l).
      * now rewrite (locate_not_found w f).
      * now rewrite (locate_error w f e).
    + now rewrite (locate_empty w f M (truthy_false _ T)).
  - now rewrite (locate_coordinates_entered w f M).
Qed.

(** *** The rendering of a prediction *)

Lemma outcome_feedback p c : outcome (feedback p c) = Returned tt.
Proof. unfold feedback. destruct (Z.eqb p 1), c; reflexivity. Qed.

Lemma outcome_map_section la lo : outcome (map_section la lo) = Returned tt.
Proof. destruct la, lo; reflexivity. Qed.

Lemma predict_section_outcome w f la lo :
  outcome (predict_section w f la lo) =
  match outcome (consult w f) with
  | Returned (p, c) => Returned (assemble f p c)
  | Raised e => Raised e
  end.
Proof.
  unfold predict_section. rewrite outcome_bind.
  destruct (outcome (consult w f)) as [[p c]|e]; [|reflexivity].
  unfold assemble. destruct (health_tips f p) as [ts link].
  rewrite !outcome_bind, outcome_feedback. simpl.
  rewrite outcome_map_section. reflexivity.
Qed.

Lemma predict_section_trace w f la lo :
  trace (predict_section w f la lo) =
  (trace (consult w f) ++
   match outcome (consult w f) with
   | Returned (p, c) => rendering f p c la lo
   | Raised _ => []
   end)%list.
Proof.
  unfold predict_section. rewrite trace_bind. f_equal.
  destruct (outcome (consult w f)) as [[p c]|e]; [|reflexivity].
  unfold rendering, download, assemble. destruct (health_tips f p) as [ts link].
  rewrite trace_bind, outcome_feedback. f_equal.
  rewrite trace_bind, outcome_emit, trace_emit.
  rewrite trace_bind, outcome_emit, trace_emit.
  rewrite trace_bind, outcome_map_section. simpl.
  now rewrite app_nil_r.
Qed.

(** *** The script after the location section *)

Lemma after_location_outcome w f la lo :
  outcome (after_location w f la lo) =
  if predict_btn f then
    match outcome (consult w f) with
    | Returned (p, c) =>
        Returned {| latitude := la; longitude := lo; predicted := Some (assemble f p c) |}
    | Raised e => Raised e
    end
  else Returned {| latitude := la; longitude := lo; predicted := None |}.
Proof.
  unfold after_location. rewrite !outcome_bind. simpl.
  assert (E : outcome (match la, lo with
                       | Some a, Some o => emit (StMarkdown (location_line f a o))
                       | _, _ => ret tt
                       end) = Returned tt) by (destruct la, lo; reflexivity).
  rewrite E.
  destruct (predict_btn f); [|reflexivity].
  rewrite outcome_bind, predict_section_outcome.
  destruct (outcome (consult w f)) as [[p c]|e]; reflexivity.
Qed.

Lemma after_location_trace w f la lo :
  trace (after_location w f la lo) =
  (StMarkdown (summary f) :: location_element f la lo ++
   if predict_btn f then
     trace (consult w f) ++
     match outcome (consult w f) with
     | Returned (p, c) => rendering f p c la lo ++ [StMarkdown footer]
     | Raised _ => []
     end
   else [StMarkdown footer])%list.
Proof.
  unfold after_location. rewrite trace_bind, outcome_emit, trace_emit. simpl.
  f_equal. rewrite trace_bind.
  assert (E : outcome (match la, lo with
                       | Some a, Some o => emit (StMarkdown (location_line f a o))
                       | _, _ => ret tt
                       end) = Returned tt) by (destruct la, lo; reflexivity).
  rewrite E. f_equal.
  { unfold location_element. destruct la, lo; reflexivity. }
  rewrite trace_bind.
  destruct (predict_btn f); [|reflexivity].
  rewrite trace_bind, outcome_bind, predict_section_outcome, predict_section_trace.
  destruct (outcome (consult w f)) as [[p c]|e]; simpl.
  - now rewrite app_nil_r, <- !app_assoc.
  - now rewrite !app_nil_r.
Qed.

(** *** The whole run *)

Lemma run_outcome w f :
  outcome (run w f) =
  outcome (after_location w f (fst (coordinates w f)) (snd (coordinates w f))).
Proof.
  unfold run. rewrite !outcome_bind. simpl. rewrite locate_returns.
  destruct (coordinates w f). reflexivity.
Qed.

Lemma run_trace w f :
  trace (run w f) =
  (heading ++ trace (locate w f) ++
   trace (after_location w f (fst (coordinates w f)) (snd (coordinates w f))))%list.
Proof.
  unfold run. rewrite !trace_bind. simpl. rewrite locate_returns.
  destruct (coordinates w f). reflexivity.
Qed.

End AppFacts.

(** ** The rules, the report and the model, one by one *)

Module RuleFacts.

Import App Shape ScriptFacts AppFacts.

Lemma In_existsb (x : string) (l : list string) :
  In x l <-> existsb (String.eqb x) l = true.
Proof.
  rewrite existsb_exists. split.
  - intros H. exists x. split; [assumption|apply String.eqb_refl].
  - intros (y & Hy & E). apply String.eqb_eq in E. now subst.
Qed.

(** The script's appends build the threshold tips followed by the label's. *)
Lemma health_tips_spec f p :
  health_tips f p =
  ((Spec.threshold_tips f ++ Spec.label_tips p)%list, Spec.reference_link p).
Proof.
  unfold health_tips, Spec.threshold_tips, Spec.label_tips, Spec.reference_link, append.
  destruct (PrimFloat.ltb (hb f) 12), (PrimFloat.ltb 40 (green_pixel f)), (Z.eqb p 1);
    reflexivity.
Qed.

Lemma assemble_fields f p c :
  prediction (assemble f p c) = p /\
  confidence (assemble f p c) = c /\
  tips (assemble f p c) = (Spec.threshold_tips f ++ Spec.label_tips p)%list /\
  learn_more (assemble f p c) = Spec.reference_link p /\
  report (assemble f p c) =
    write_report f p c (Spec.threshold_tips f ++ Spec.label_tips p)%list
      (Spec.reference_link p).
Proof.
  unfold assemble. rewrite health_tips_spec. repeat split.
Qed.

Lemma threshold_tips_only f t :
  In t (Spec.threshold_tips f) -> t = tip_iron \/ t = tip_hydration.
Proof.
  unfold Spec.threshold_tips.
  destruct (PrimFloat.ltb (hb f) 12), (PrimFloat.ltb 40 (green_pixel f));
    simpl; intuition auto.
Qed.

Lemma iron_in_tips f p :
  In tip_iron (Spec.threshold_tips f ++ Spec.label_tips p) <->
  PrimFloat.ltb (hb f) 12 = true.
Proof.
  rewrite In_existsb. unfold Spec.threshold_tips, Spec.label_tips.
  destruct (PrimFloat.ltb (hb f) 12), (PrimFloat.ltb 40 (green_pixel f)), (Z.eqb p 1);
    vm_compute; split; congruence.
Qed.

Lemma hydration_in_tips f p :
  In tip_hydration (Spec.threshold_tips f ++ Spec.label_tips p) <->
  PrimFloat.ltb 40 (green_pixel f) = true.
Proof.
  rewrite In_existsb. unfold Spec.threshold_tips, Spec.label_tips.
  destruct (PrimFloat.ltb (hb f) 12), (PrimFloat.ltb 40 (green_pixel f)), (Z.eqb p 1);
    vm_compute; split; congruence.
Qed.

(** *** What the model was asked and what it answered *)

Lemma consult_outcome w f clf p :
  load w MODEL_PATH = Returned clf ->
  predict clf (input_data f) = Returned p ->
  outcome (consult w f) =
  match predict_proba clf with
  | None => Returned (p, None)
  | Some proba_of =>
      match proba_of (input_data f) with
      | Returned proba =>
          match Numpy.max proba with
          | Returned c => Returned (p, Some c)
          | Raised e => Raised e
          end
      | Raised e => Raised e
      end
  end.
Proof.
  intros L P. unfold consult, call, lift. rewrite L. simpl. rewrite P. simpl.
  destruct (predict_proba clf) as [proba_of|]; [|reflexivity].
  destruct (proba_of (input_data f)) as [proba|e]; [|reflexivity].
  simpl. destruct (Numpy.max proba); reflexivity.
Qed.

Lemma consult_inversion w f p c :
  outcome (consult w f) = Returned (p, c) ->
  exists clf,
    load w MODEL_PATH = Returned clf /\
    predict clf (input_data f) = Returned p /\
    match predict_proba clf with
    | None => c = None
    | Some proba_of =>
        exists proba m,
          proba_of (input_data f) = Returned proba /\
          Numpy.max proba = Returned m /\ c = Some m
    end.
Proof.
  unfold consult, call, lift.
  destruct (load w MODEL_PATH) as [clf|e] eqn:L; [|discriminate]. simpl.
  destruct (predict clf (input_data f)) as [q|e] eqn:P; [|discriminate].
  simpl. intros H. exists clf. split; [reflexivity|].
  destruct (predict_proba clf) as [proba_of|].
  - destruct (proba_of (input_data f)) as [proba|e] eqn:Q; [|discriminate].
    simpl in H. destruct (Numpy.max proba) as [m|e] eqn:Mx; [|discriminate].
    simpl in H. inversion H; subst. split; [assumption|]. eauto.
  - simpl in H. inversion H; subst. split; [assumption|reflexivity].
Qed.

(** The events of the consultation, by what the model did. *)
Lemma consult_trace w f :
  trace (consult w f) =
  (JoblibLoad MODEL_PATH ::
   match load w MODEL_PATH with
   | Raised _ => []
   | Returned clf =>
       ClfPredict (input_data f) ::
       match predict clf (input_data f), predict_proba clf with
       | Returned _, Some _ => [ClfPredictProba (input_data f)]
       | _, _ => []
       end
   end)%list.
Proof.
  unfold consult, call, lift.
  destruct (load w MODEL_PATH) as [clf|e]; [|reflexivity]. simpl.
  destruct (predict clf (input_data f)) as [q|e]; [|reflexivity].
  simpl. destruct (predict_proba clf) as [proba_of|]; [|reflexivity].
  destruct (proba_of (input_data f)) as [proba|e]; [|reflexivity].
  simpl. destruct (Numpy.max proba); reflexivity.
Qed.

(** *** A run that reaches a prediction, and back *)

Lemma run_predicted w f r pr :
  outcome (run w f) = Returned r -> predicted r = Some pr ->
  predict_btn f = true /\
  exists p c, outcome (consult w f) = Returned (p, c) /\ pr = assemble f p c.
Proof.
  rewrite run_outcome, after_location_outcome.
  destruct (predict_btn f).
  - destruct (outcome (consult w f)) as [[p c]|e]; [|discriminate].
    intros H E. inversion H; subst. simpl in E. inversion E; subst.
    split; [reflexivity|]. eauto.
  - intros H E. inversion H; subst. discriminate.
Qed.

Lemma run_completes w f p c :
  predict_btn f = true -> outcome (consult w f) = Returned (p, c) ->
  outcome (run w f) =
  Returned {| latitude := fst (coordinates w f); longitude := snd (coordinates w f);
              predicted := Some (assemble f p c) |}.
Proof.
  intros B C. rewrite run_outcome, after_location_outcome, B, C. reflexivity.
Qed.

Lemma run_idle w f :
  predict_btn f = false ->
  outcome (run w f) =
  Returned {| latitude := fst (coordinates w f); longitude := snd (coordinates w f);
              predicted := None |}.
Proof.
  intros B. rewrite run_outcome, after_location_outcome, B. reflexivity.
Qed.

End RuleFacts.

(** ** The advisory rules *)

Section AdvisoryRules.

Import App Shape RuleFacts.

Variables (w : World) (f : Form) (r : Run) (pr : Prediction).
Hypothesis completed : outcome (run w f) = Returned r.
Hypothesis pressed : predicted r = Some pr.

(** C1.  In a run that reaches a prediction, the label is the model's answer
    and it alone decides the link and the tips that follow the threshold
    tips: for label 1 (Anaemic) the link is the WHO page and the tips are the
    doctor-consult tip and the regular-checkups tip; for any other label, 0
    (Not Anaemic) among them, the link is the general health page and the
    tips are the four wellness tips.  The tips before them are threshold tips
    only. *)
Theorem label_decides_tips_and_link :
  (exists clf, load w MODEL_PATH = Returned clf /\
               predict clf (input_data f) = Returned (prediction pr)) /\
  (forall t, In t (Spec.threshold_tips f) -> t = tip_iron \/ t = tip_hydration) /\
  (prediction pr = 1 ->
     learn_more pr = link_who /\
     tips pr = (Spec.threshold_tips f ++ [tip_doctor; tip_checkups])%list) /\
  (prediction pr <> 1 ->
     learn_more pr = link_general /\
     tips pr = (Spec.threshold_tips f ++
                [tip_diet; tip_exercise; tip_sleep; tip_health_checkups])%list).
Proof.
  destruct (run_predicted w f r pr completed pressed) as (_ & p & c & C & ->).
  destruct (assemble_fields f p c) as (-> & _ & -> & -> & _).
  destruct (consult_inversion w f p c C) as (clf & L & P & _).
  split; [eauto|]. split; [apply threshold_tips_only|].
  unfold Spec.label_tips, Spec.reference_link. split.
  - intros ->. split; reflexivity.
  - intros N. apply Z.eqb_neq in N. rewrite N. split; reflexivity.
Qed.

(** C2.  In a run that reaches a prediction, the iron-rich-foods tip is in the
    tip list when hemoglobin is below 12 and is not when hemoglobin is 12 or
    more; it is there exactly when the script's test [hb < 12] holds. *)
Theorem iron_tip_iff_low_hemoglobin :
  (PrimFloat.ltb (hb f) 12 = true -> In tip_iron (tips pr)) /\
  (PrimFloat.leb 12 (hb f) = true -> ~ In tip_iron (tips pr)) /\
  (In tip_iron (tips pr) <-> PrimFloat.ltb (hb f) 12 = true).
Proof.
  destruct (run_predicted w f r pr completed pressed) as (_ & p & c & _ & ->).
  destruct (assemble_fields f p c) as (_ & _ & -> & _).
  rewrite iron_in_tips. split; [auto|]. split; [|reflexivity].
  intros H. apply FloatOrder.leb_ltb_false in H. congruence.
Qed.

(** C3.  In a run that reaches a prediction, the hydration tip is in the tip
    list when the green percentage is above 40 and is not when it is 40 or
    less; it is there exactly when the script's test [green_pixel > 40]
    holds. *)
Theorem hydration_tip_iff_high_green :
  (PrimFloat.ltb 40 (green_pixel f) = true -> In tip_hydration (tips pr)) /\
  (PrimFloat.leb (green_pixel f) 40 = true -> ~ In tip_hydration (tips pr)) /\
  (In tip_hydration (tips pr) <-> PrimFloat.ltb 40 (green_pixel f) = true).
Proof.
  destruct (run_predicted w f r pr completed pressed) as (_ & p & c & _ & ->).
  destruct (assemble_fields f p c) as (_ & _ & -> & _).
  rewrite hydration_in_tips. split; [auto|]. split; [|reflexivity].
  intros H. apply FloatOrder.leb_ltb_false in H. congruence.
Qed.

End AdvisoryRules.

Lemma label_decides_tips_and_link_sample :
  App.learn_more Sample.prediction = App.link_who /\
  App.tips Sample.prediction = [App.tip_iron; App.tip_doctor; App.tip_checkups].
Proof.
  destruct (label_decides_tips_and_link Sample.world Sample.form Sample.result
              Sample.prediction) as (_ & _ & H & _).
  - vm_compute. reflexivity.
  - reflexivity.
  - apply H. reflexivity.
Defined.

Lemma iron_tip_sample :
  PrimFloat.ltb (App.hb Sample.form) 12 = true /\
  In App.tip_iron (App.tips Sample.prediction).
Proof.
  split; [reflexivity|].
  destruct (iron_tip_iff_low_hemoglobin Sample.world Sample.form Sample.result
              Sample.prediction) as (H & _).
  - vm_compute. reflexivity.
  - reflexivity.
  - apply H. reflexivity.
Defined.

Lemma hydration_tip_sample :
  PrimFloat.ltb 40 (App.green_pixel Sample.form_at_origin) = true /\
  In App.tip_hydration (App.tips Sample.prediction_at_origin).
Proof.
  split; [reflexivity|].
  destruct (hydration_tip_iff_high_green Sample.bare_world Sample.form_at_origin
              Sample.result_at_origin Sample.prediction_at_origin) as (H & _).
  - vm_compute. reflexivity.
  - reflexivity.
  - apply H. reflexivity.
Defined.

(** ** The report *)

Module ReportFacts.

Import App Shape ScriptFacts AppFacts RuleFacts.

Lemma append_assoc (a b c : string) : (a ++ b) ++ c = a ++ (b ++ c).
Proof. induction a as [|x a IH]; simpl; [reflexivity|now rewrite IH]. Qed.

Lemma append_nil_r (a : string) : a ++ EmptyString = a.
Proof. induction a as [|x a IH]; simpl; [reflexivity|now rewrite IH]. Qed.

Lemma unlines_app (a b : list string) :
  Spec.unlines (a ++ b) = Spec.unlines a ++ Spec.unlines b.
Proof.
  induction a as [|l a IH]; simpl; [reflexivity|].
  now rewrite IH, !append_assoc.
Qed.

(** The loop over the tips writes one line for each. *)
Lemma write_tips (tips : list string) : forall buffer,
  fold_left (fun report tip => write report ("- " ++ tip ++ nl)) tips buffer =
  buffer ++ Spec.unlines (Spec.tip_lines tips).
Proof.
  induction tips as [|t tips IH]; intros buffer; simpl.
  - now rewrite append_nil_r.
  - rewrite IH. unfold write. repeat (rewrite !append_assoc; simpl). reflexivity.
Qed.

(** The buffer the script fills holds the lines of the specification. *)
Lemma write_report_lines f p c tips link :
  write_report f p c tips link =
  Spec.unlines
    (Spec.report_lines f
       {| prediction := p; confidence := c; tips := tips; learn_more := link;
          report := EmptyString |}).
Proof.
  unfold write_report, Spec.report_lines, Spec.field_lines, Spec.prediction_line,
    Spec.label, Spec.confidence_lines.
  cbn [prediction confidence App.tips learn_more].
  rewrite write_tips. unfold write.
  rewrite !unlines_app.
  destruct c as [c|]; cbn [Spec.unlines];
    repeat (rewrite !append_assoc; simpl); reflexivity.
Qed.

End ReportFacts.

(** ** The events of a run *)

Module TraceFacts.

Import App Shape ScriptFacts AppFacts RuleFacts.

Section Run.

Variables (w : World) (f : Form).

Local Abbreviation la := (fst (coordinates w f)).
Local Abbreviation lo := (snd (coordinates w f)).

Lemma run_trace_answered p c :
  predict_btn f = true -> outcome (consult w f) = Returned (p, c) ->
  trace (run w f) =
  (heading ++ trace (locate w f) ++
   StMarkdown (summary f) :: location_element f la lo ++
   trace (consult w f) ++ rendering f p c la lo ++ [StMarkdown footer])%list.
Proof.
  intros B C. rewrite run_trace, after_location_trace, B, C. reflexivity.
Qed.

Lemma run_trace_failed e :
  predict_btn f = true -> outcome (consult w f) = Raised e ->
  trace (run w f) =
  (heading ++ trace (locate w f) ++
   StMarkdown (summary f) :: location_element f la lo ++ trace (consult w f))%list.
Proof.
  intros B C. rewrite run_trace, after_location_trace, B, C.
  now rewrite app_nil_r.
Qed.

Lemma run_trace_idle :
  predict_btn f = false ->
  trace (run w f) =
  (heading ++ trace (locate w f) ++
   StMarkdown (summary f) :: location_element f la lo ++ [StMarkdown footer])%list.
Proof.
  intros B. rewrite run_trace, after_location_trace, B. reflexivity.
Qed.

(** What was rendered for a prediction is part of the run. *)
Lemma rendering_in_run p c ev :
  predict_btn f = true -> outcome (consult w f) = Returned (p, c) ->
  In ev (rendering f p c la lo) -> In ev (trace (run w f)).
Proof.
  intros B C H. rewrite (run_trace_answered p c B C).
  apply in_or_app. right. apply in_or_app. right. right.
  apply in_or_app. right. apply in_or_app. right. apply in_or_app. now left.
Qed.

Lemma download_in_run p c :
  predict_btn f = true -> outcome (consult w f) = Returned (p, c) ->
  In (download (assemble f p c)) (trace (run w f)).
Proof.
  intros B C. apply (rendering_in_run p c); auto.
  unfold rendering. apply in_or_app. right. simpl. auto.
Qed.

Lemma consult_in_run ev :
  predict_btn f = true -> In ev (trace (consult w f)) -> In ev (trace (run w f)).
Proof.
  intros B H. rewrite run_trace, after_location_trace, B.
  apply in_or_app. right. apply in_or_app. right. right.
  apply in_or_app. right. apply in_or_app. now left.
Qed.

Lemma location_element_in_run ev :
  In ev (location_element f la lo) -> In ev (trace (run w f)).
Proof.
  intros H. rewrite run_trace, after_location_trace.
  apply in_or_app. right. apply in_or_app. right. right.
  apply in_or_app. now left.
Qed.

(** An event of a run comes from one of its pieces. *)
Lemma in_run ev :
  In ev (trace (run w f)) ->
  In ev heading \/ In ev (trace (locate w f)) \/ ev = StMarkdown (summary f) \/
  In ev (location_element f la lo) \/ ev = StMarkdown footer \/
  (predict_btn f = true /\
   (In ev (trace (consult w f)) \/
    exists p c, outcome (consult w f) = Returned (p, c) /\
                In ev (rendering f p c la lo))).
Proof.
  rewrite run_trace, after_location_trace.
  rewrite !in_app_iff. simpl. rewrite in_app_iff.
  intros [H|[H|[H|[H|H]]]]; auto.
  destruct (predict_btn f).
  - rewrite in_app_iff in H. destruct H as [H|H]; [auto 10|].
    destruct (outcome (consult w f)) as [[p c]|e]; [|contradiction].
    rewrite in_app_iff in H. destruct H as [H|[H|[]]]; eauto 12.
  - destruct H as [H|[]]; auto 10.
Qed.

End Run.

(** *** Events by kind *)

Lemma feedback_trace p c :
  trace (feedback p c) =
  if Z.eqb p 1 then
    (StMarkdown headline_anaemic ::
     match c with Some x => [StMarkdown (confidence_anaemic x)] | None => [] end ++
     [StMarkdown advice_anaemic])%list
  else
    (StMarkdown headline_not_anaemic ::
     match c with Some x => [StMarkdown (confidence_not_anaemic x)] | None => [] end ++
     [StMarkdown advice_not_anaemic])%list.
Proof. unfold feedback. destruct (Z.eqb p 1), c; reflexivity. Qed.

Lemma map_section_trace la lo :
  trace (map_section la lo) = [] \/
  exists a o, la = Some a /\ lo = Some o /\
    In (StMap [("lat", [CFloat a]); ("lon", [CFloat o])]) (trace (map_section la lo)).
Proof.
  destruct la as [a|], lo as [o|]; simpl; auto.
  right. exists a, o. auto 10.
Qed.

Lemma quiet_after_location w f la lo :
  Forall (fun ev => is_geocode_call ev = false /\ is_warning ev = false)
    (trace (after_location w f la lo)).
Proof.
  rewrite after_location_trace. constructor; [split; reflexivity|].
  apply Forall_app. split.
  { unfold location_element. destruct la, lo; repeat constructor. }
  destruct (predict_btn f); [|repeat constructor].
  apply Forall_app. split.
  { rewrite consult_trace. constructor; [split; reflexivity|].
    destruct (load w MODEL_PATH) as [clf|]; [|constructor].
    constructor; [split; reflexivity|].
    destruct (predict clf (input_data f)), (predict_proba clf); repeat constructor. }
  destruct (outcome (consult w f)) as [[p c]|e]; [|constructor].
  apply Forall_app. split; [|repeat constructor].
  unfold rendering. apply Forall_app. split.
  { rewrite feedback_trace. destruct (Z.eqb p 1), c; repeat constructor. }
  apply Forall_app. split; [repeat constructor|].
  destruct la, lo; repeat constructor.
Qed.

Lemma filter_none {A : Type} (sel : A -> bool) (l : list A) :
  Forall (fun x => sel x = false) l -> filter sel l = [].
Proof.
  induction 1 as [|x l H _ IH]; simpl; [reflexivity|]. now rewrite H.
Qed.

(** Geocoder calls and warnings come from the location section alone. *)
Lemma filter_run_location_only sel w f :
  location_only sel ->
  filter sel (trace (run w f)) = filter sel (trace (locate w f)).
Proof.
  intros Hsel.
  assert (N : forall ev, is_geocode_call ev = false /\ is_warning ev = false ->
                         sel ev = false).
  { intros ev [G W]. destruct (sel ev) eqn:E; [|reflexivity].
    destruct (Hsel ev E); congruence. }
  rewrite run_trace, !filter_app.
  rewrite (filter_none sel heading) by (repeat constructor; apply N; split; reflexivity).
  rewrite (filter_none sel (trace (after_location _ _ _ _))).
  - now rewrite app_nil_r.
  - eapply Forall_impl; [|apply quiet_after_location]. exact N.
Qed.

End TraceFacts.

(** ** The report of a run *)

Module ReportLines.

Import App Shape RuleFacts ReportFacts.

Lemma report_of_assemble f p c :
  report (assemble f p c) = Spec.unlines (Spec.report_lines f (assemble f p c)).
Proof.
  unfold assemble. destruct (health_tips f p) as [ts link].
  cbn [report]. unfold getvalue. apply write_report_lines.
Qed.

(** Without a confidence no line of the report speaks of one. *)
Lemma no_confidence_line f p :
  Forall (fun l => starts_with_confidence l = false)
    (Spec.report_lines f (assemble f p None)).
Proof.
  unfold Spec.report_lines.
  destruct (assemble_fields f p None) as (-> & -> & -> & -> & _).
  repeat (apply Forall_app; split); try (repeat constructor; fail).
  - unfold Spec.tip_lines. apply Forall_forall. intros l H.
    apply in_map_iff in H. destruct H as (t & <- & _). reflexivity.
  - unfold Spec.reference_link. destruct (Z.eqb p 1); repeat constructor.
Qed.

Lemma last_report_line f pr :
  last (Spec.report_lines f pr) EmptyString = learn_more pr.
Proof.
  unfold Spec.report_lines.
  change [EmptyString; learn_more pr] with ([EmptyString] ++ [learn_more pr])%list.
  rewrite !app_assoc. apply last_last.
Qed.

(** The text of the report ends with the link and the newline of its line. *)
Lemma report_ends_with_link f pr :
  exists before,
    Spec.unlines (Spec.report_lines f pr) = before ++ learn_more pr ++ nl.
Proof.
  unfold Spec.report_lines.
  change [EmptyString; learn_more pr] with ([EmptyString] ++ [learn_more pr])%list.
  rewrite !app_assoc, unlines_app. eexists. reflexivity.
Qed.

End ReportLines.

Section Report.

Import App Shape RuleFacts TraceFacts ReportLines.

Variables (w : World) (f : Form) (r : Run) (pr : Prediction).
Hypothesis completed : outcome (run w f) = Returned r.
Hypothesis pressed : predicted r = Some pr.

(** C4.  In a run that reaches a prediction, the text behind the download
    button is the report, and the report is made of these lines, each ended
    by a newline: a title and its rule; one [key: value] line for each input
    field, with the value as Python prints it; the label; the confidence as a
    percentage with one decimal place when there is a confidence, and no line
    that starts with Confidence when there is none; an empty line and the
    heading of the tips; each tip on a line of its own after a dash and a
    space; an empty line; and last the reference link, so that the text ends
    with the link and the newline of its line.  For the sample input
    (hemoglobin 10.0, confidence 0.82) the report has the lines
    [Hemoglobin (Hb): 10.0] and [Confidence: 82.0%]. *)
Theorem report_layout :
  In (download pr) (trace (run w f)) /\
  report pr = Spec.unlines (Spec.report_lines f pr) /\
  (In ("Sex: " ++ sex f) (Spec.report_lines f pr) /\
   In ("%Red Pixel: " ++ PyFloat.float_repr (red_pixel f)) (Spec.report_lines f pr) /\
   In ("%Green pixel: " ++ PyFloat.float_repr (green_pixel f)) (Spec.report_lines f pr) /\
   In ("%Blue pixel: " ++ PyFloat.float_repr (blue_pixel f)) (Spec.report_lines f pr) /\
   In ("Hemoglobin (Hb): " ++ PyFloat.float_repr (hb f)) (Spec.report_lines f pr)) /\
  In ("Prediction: " ++ (if Z.eqb (prediction pr) 1 then "Anaemic" else "Not Anaemic"))
     (Spec.report_lines f pr) /\
  (forall c, confidence pr = Some c ->
     In ("Confidence: " ++ PyFloat.format_1f (PrimFloat.mul c 100) ++ "%")
        (Spec.report_lines f pr)) /\
  (confidence pr = None ->
     Forall (fun l => starts_with_confidence l = false) (Spec.report_lines f pr)) /\
  (forall tip, In tip (tips pr) -> In ("- " ++ tip) (Spec.report_lines f pr)) /\
  last (Spec.report_lines f pr) EmptyString = learn_more pr /\
  (exists before, report pr = before ++ learn_more pr ++ nl) /\
  (exists r0 pr0,
     outcome (run Sample.world Sample.form) = Returned r0 /\
     predicted r0 = Some pr0 /\
     hb Sample.form = 10%float /\ confidence pr0 = Some 0.82%float /\
     In "Hemoglobin (Hb): 10.0" (Spec.lines_of (report pr0)) /\
     In "Confidence: 82.0%" (Spec.lines_of (report pr0))).
Proof.
  destruct (run_predicted w f r pr completed pressed) as (B & p & c & C & ->).
  split; [apply download_in_run; assumption|].
  split; [apply report_of_assemble|].
  split; [unfold Spec.report_lines, Spec.field_lines; simpl; auto 12|].
  split.
  { unfold Spec.report_lines. do 2 (apply in_or_app; right).
    apply in_or_app. left. left. reflexivity. }
  split.
  { intros c0 E. unfold Spec.report_lines. rewrite E.
    do 3 (apply in_or_app; right). apply in_or_app. left. simpl. auto. }
  split.
  { intros E. destruct (assemble_fields f p c) as (_ & Ec & _).
    rewrite Ec in E. subst c. apply no_confidence_line. }
  split.
  { intros tip H. unfold Spec.report_lines.
    do 5 (apply in_or_app; right). apply in_or_app. left.
    unfold Spec.tip_lines. apply in_map_iff. eauto. }
  split; [apply last_report_line|].
  split; [rewrite report_of_assemble; apply report_ends_with_link|].
  eexists. eexists.
  split; [vm_compute; reflexivity|].
  split; [reflexivity|].
  split; [reflexivity|].
  split; [reflexivity|].
  split; vm_compute; auto 20.
Qed.

End Report.

Lemma report_layout_sample :
  In (Shape.download Sample.prediction) (trace (App.run Sample.world Sample.form)) /\
  App.report Sample.prediction =
  Spec.unlines (Spec.report_lines Sample.form Sample.prediction).
Proof.
  destruct (report_layout Sample.world Sample.form Sample.result Sample.prediction)
    as (D & R & _).
  - vm_compute. reflexivity.
  - reflexivity.
  - split; assumption.
Defined.

(** ** The confidence *)

Module ConfidenceFacts.

Import App Shape RuleFacts TraceFacts.

Lemma locate_events w f ev :
  In ev (trace (locate w f)) -> is_geocode_call ev = true \/ is_warning ev = true.
Proof.
  unfold locate.
  destruct (location_mode f); [|intros []].
  destruct (truthy (location_entry f)); [|intros []].
  unfold call. destruct (geocode w (location_entry f)) as [[l|]|e]; simpl;
    intuition (subst; auto).
Qed.

Lemma consult_events w f ev :
  In ev (trace (consult w f)) -> is_model_or_download ev = true.
Proof.
  rewrite consult_trace. intros [<-|H]; [reflexivity|].
  destruct (load w MODEL_PATH) as [clf|]; [|destruct H].
  destruct H as [<-|H]; [reflexivity|].
  destruct (predict clf (input_data f)), (predict_proba clf); simpl in H;
    intuition (subst; auto).
Qed.

(** The confidence line of the label is rendered when there is a confidence. *)
Lemma confidence_rendered f p c la lo :
  In (StMarkdown (if Z.eqb p 1 then confidence_anaemic c else confidence_not_anaemic c))
     (rendering f p (Some c) la lo).
Proof.
  unfold rendering. apply in_or_app. left. rewrite feedback_trace.
  destruct (Z.eqb p 1); simpl; auto.
Qed.

(** Without a confidence nothing rendered for the prediction is a confidence
    line. *)
Lemma rendering_without_confidence f p la lo ev :
  In ev (rendering f p None la lo) -> is_confidence_element ev = false.
Proof.
  unfold rendering. rewrite !in_app_iff, feedback_trace. intros [H|[H|H]].
  - destruct (Z.eqb p 1); simpl in H; intuition (subst; reflexivity).
  - simpl in H. intuition (subst; reflexivity).
  - destruct la, lo; simpl in H; intuition (subst; reflexivity).
Qed.

Lemma run_without_confidence w f p ev :
  outcome (consult w f) = Returned (p, None) ->
  In ev (trace (run w f)) -> is_confidence_element ev = false.
Proof.
  intros C H. apply in_run in H.
  destruct H as [H|[H|[->|[H|[->|(_ & [H|(q & c & C' & H)])]]]]].
  - simpl in H. intuition (subst; reflexivity).
  - apply locate_events in H. destruct ev; simpl in H; intuition congruence.
  - reflexivity.
  - unfold location_element in H.
    destruct (fst (coordinates w f)), (snd (coordinates w f)); simpl in H;
      intuition (subst; reflexivity).
  - reflexivity.
  - apply consult_events in H. destruct ev; simpl in H; congruence || reflexivity.
  - rewrite C in C'. inversion C'; subst.
    eapply rendering_without_confidence; eassumption.
Qed.

End ConfidenceFacts.

Section Confidence.

Import Binary64 App Shape RuleFacts TraceFacts ReportLines ConfidenceFacts.

Variables (w : World) (f : Form) (clf : Classifier) (p : Z).
Hypothesis pressed : predict_btn f = true.
Hypothesis loaded : load w MODEL_PATH = Returned clf.
Hypothesis labelled : predict clf (input_data f) = Returned p.

(** C5.  When the button is pressed and the loaded model gives a label: if
    the model has [predict_proba] and it returns a non-empty array for the
    record, the confidence of the run is [np.max] of that array (one of its
    entries, and none of them greater, when they are numbers), and it is
    rendered and reported; if the model has no [predict_proba], the run has
    no confidence, no rendered element is a confidence line and no line of
    the report starts with Confidence. *)
Theorem confidence_is_max_probability :
  (forall proba_of proba,
     predict_proba clf = Some proba_of ->
     proba_of (input_data f) = Returned proba -> proba <> [] ->
     exists c r pr,
       Numpy.max proba = Returned c /\
       (Forall number proba ->
          In c proba /\ Forall (fun y => PrimFloat.leb y c = true) proba) /\
       outcome (run w f) = Returned r /\ predicted r = Some pr /\
       confidence pr = Some c /\
       In (StMarkdown (if Z.eqb p 1 then confidence_anaemic c
                       else confidence_not_anaemic c)) (trace (run w f)) /\
       In ("Confidence: " ++ percent c) (Spec.report_lines f pr) /\
       report pr = Spec.unlines (Spec.report_lines f pr)) /\
  (predict_proba clf = None ->
     exists r pr,
       outcome (run w f) = Returned r /\ predicted r = Some pr /\
       confidence pr = None /\
       (forall ev, In ev (trace (run w f)) -> is_confidence_element ev = false) /\
       Forall (fun l => starts_with_confidence l = false) (Spec.report_lines f pr) /\
       report pr = Spec.unlines (Spec.report_lines f pr)).
Proof.
  pose proof (consult_outcome w f clf p loaded labelled) as C.
  split.
  - intros proba_of proba E Q Hne. rewrite E, Q in C.
    destruct (NumpyFacts.max_returns proba Hne) as [c Mx]. rewrite Mx in C.
    exists c. eexists. exists (assemble f p (Some c)).
    split; [assumption|]. split.
    { intros Hnum. destruct (NumpyFacts.max_spec proba Hnum Hne) as (c' & Mx' & Hin & Hall).
      rewrite Mx in Mx'. inversion Mx'; subst. auto. }
    split; [apply (run_completes w f p (Some c) pressed C)|].
    split; [reflexivity|].
    split; [apply assemble_fields|].
    split.
    { apply (rendering_in_run w f p (Some c)); auto. apply confidence_rendered. }
    split; [|apply report_of_assemble].
    unfold Spec.report_lines.
    destruct (assemble_fields f p (Some c)) as (_ & -> & _).
    do 3 (apply in_or_app; right). apply in_or_app. left. simpl. auto.
  - intros E. rewrite E in C.
    eexists. exists (assemble f p None).
    split; [apply (run_completes w f p None pressed C)|].
    split; [reflexivity|].
    split; [apply assemble_fields|].
    split; [intros ev; apply run_without_confidence with (p := p); assumption|].
    split; [apply no_confidence_line|apply report_of_assemble].
Qed.

End Confidence.

Lemma confidence_is_max_probability_sample :
  exists c r pr,
    Numpy.max [0.18%float; 0.82%float] = Returned c /\
    (Forall Binary64.number [0.18%float; 0.82%float] ->
       In c [0.18%float; 0.82%float] /\
       Forall (fun y => PrimFloat.leb y c = true) [0.18%float; 0.82%float]) /\
    outcome (App.run Sample.world Sample.form) = Returned r /\
    App.predicted r = Some pr /\ App.confidence pr = Some c.
Proof.
  destruct (confidence_is_max_probability Sample.world Sample.form Sample.model 1)
    as [H _].
  - reflexivity.
  - reflexivity.
  - reflexivity.
  - destruct (H (fun _ => Returned [0.18%float; 0.82%float]) [0.18%float; 0.82%float])
      as (c & r & pr & Mx & Hmax & Hr & Hp & Hc & _).
    + reflexivity.
    + reflexivity.
    + discriminate.
    + exists c, r, pr. auto.
Defined.

(** ** The model's view of a run *)

Module ModelFacts.

Import App Shape ScriptFacts AppFacts RuleFacts TraceFacts ConfidenceFacts.

Lemma rendering_model_events f p c la lo :
  filter is_model_or_download (rendering f p c la lo) = [download (assemble f p c)].
Proof.
  unfold rendering. rewrite !filter_app, feedback_trace.
  replace (filter is_model_or_download (trace (map_section la lo))) with (@nil Event)
    by (destruct la, lo; reflexivity).
  destruct (Z.eqb p 1), c; reflexivity.
Qed.

Lemma consult_model_events w f :
  filter is_model_or_download (trace (consult w f)) = trace (consult w f).
Proof.
  apply forallb_filter_id. apply forallb_forall. intros ev. apply consult_events.
Qed.

Lemma locate_model_events w f :
  filter is_model_or_download (trace (locate w f)) = [].
Proof.
  apply filter_none. apply Forall_forall. intros ev H.
  apply locate_events in H. destruct ev; simpl in *; intuition congruence.
Qed.

(** The calls to the model and the download button of a run. *)
Lemma run_model_events w f :
  filter is_model_or_download (trace (run w f)) =
  if predict_btn f then
    (trace (consult w f) ++
     match outcome (consult w f) with
     | Returned (p, c) => [download (assemble f p c)]
     | Raised _ => []
     end)%list
  else [].
Proof.
  rewrite run_trace, after_location_trace.
  rewrite !filter_app, locate_model_events. simpl. rewrite filter_app.
  replace (filter is_model_or_download
             (location_element f (fst (coordinates w f)) (snd (coordinates w f))))
    with (@nil Event)
    by (unfold location_element;
        destruct (fst (coordinates w f)), (snd (coordinates w f)); reflexivity).
  destruct (predict_btn f); [|reflexivity].
  simpl. rewrite filter_app, consult_model_events. f_equal.
  destruct (outcome (consult w f)) as [[p c]|e]; [|reflexivity].
  rewrite filter_app, rendering_model_events. reflexivity.
Qed.

Lemma run_prediction_view w f :
  prediction_view (run w f) =
  if predict_btn f then
    match outcome (consult w f) with
    | Returned (p, c) => Returned (Some (assemble f p c))
    | Raised e => Raised e
    end
  else Returned None.
Proof.
  unfold prediction_view. rewrite run_outcome, after_location_outcome.
  destruct (predict_btn f); [|reflexivity].
  destruct (outcome (consult w f)) as [[p c]|e]; reflexivity.
Qed.

Lemma input_data_ext f1 f2 : same_measurements f1 f2 -> input_data f1 = input_data f2.
Proof.
  intros [S R H G B _]. unfold input_data, sex_encoded. now rewrite S, R, H, G, B.
Qed.

Lemma consult_ext w1 w2 f1 f2 :
  same_measurements f1 f2 -> load w1 MODEL_PATH = load w2 MODEL_PATH ->
  consult w1 f1 = consult w2 f2.
Proof.
  intros M L. unfold consult. now rewrite L, (input_data_ext f1 f2 M).
Qed.

Lemma assemble_ext f1 f2 p c : same_measurements f1 f2 -> assemble f1 p c = assemble f2 p c.
Proof.
  intros [S R H G B _]. unfold assemble, health_tips, write_report.
  now rewrite S, R, H, G, B.
Qed.

(** The events after the location section that are calls to the model are
    those of the consultation. *)
Lemma model_input_in_run w f ev X :
  In ev (trace (run w f)) -> model_input ev = Some X ->
  In ev (trace (consult w f)).
Proof.
  intros H E.
  assert (K : In ev (filter is_model_or_download (trace (run w f)))).
  { apply filter_In. split; [assumption|].
    destruct ev; simpl in E; try discriminate; reflexivity. }
  rewrite run_model_events in K.
  destruct (predict_btn f); [|destruct K].
  apply in_app_or in K. destruct K as [K|K]; [assumption|].
  destruct (outcome (consult w f)) as [[p c]|e]; [|destruct K].
  destruct K as [<-|[]]. discriminate.
Qed.

Lemma consult_inputs w f ev X :
  In ev (trace (consult w f)) -> model_input ev = Some X -> X = input_data f.
Proof.
  rewrite consult_trace. intros [<-|H]; [discriminate|].
  destruct (load w MODEL_PATH) as [clf|]; [|destruct H].
  destruct H as [<-|H]; [simpl; congruence|].
  destruct (predict clf (input_data f)), (predict_proba clf); simpl in H;
    try contradiction.
  destruct H as [<-|[]]. simpl. congruence.
Qed.

End ModelFacts.

Section ModelRecord.

Import App Shape RuleFacts TraceFacts ModelFacts.

Variables (w : World) (f : Form).

(** C7.  Every call a run makes to the model's [predict] or [predict_proba]
    is given the same record: one row of the five columns Sex, %Red Pixel,
    %Green pixel, %Blue pixel and Hb, in this order, holding the encoded sex
    and the four measurements of the form.  The encoded sex is 0 or 1, and 0
    exactly for 'M'.  A pressed button with a model that loads does call
    [predict] with it, and [predict_proba] too when the model has it and
    [predict] returned. *)
Theorem model_record_is_the_form :
  (forall ev X, In ev (trace (run w f)) -> model_input ev = Some X ->
     X = [ ("Sex", [CInt (sex_encoded f)]);
           ("%Red Pixel", [CFloat (red_pixel f)]);
           ("%Green pixel", [CFloat (green_pixel f)]);
           ("%Blue pixel", [CFloat (blue_pixel f)]);
           ("Hb", [CFloat (hb f)]) ]) /\
  (sex_encoded f = 0 \/ sex_encoded f = 1) /\
  (sex_encoded f = 0 <-> sex f = "M") /\
  (forall clf, predict_btn f = true -> load w MODEL_PATH = Returned clf ->
     In (ClfPredict (input_data f)) (trace (run w f)) /\
     (forall p proba_of,
        predict clf (input_data f) = Returned p ->
        predict_proba clf = Some proba_of ->
        In (ClfPredictProba (input_data f)) (trace (run w f)))).
Proof.
  split.
  { intros ev X H E. apply (consult_inputs w f ev X); [|assumption].
    eapply model_input_in_run; eassumption. }
  unfold sex_encoded. split; [destruct (String.eqb (sex f) "M"); auto|].
  split.
  { destruct (String.eqb_spec (sex f) "M"); split; intros; congruence || discriminate. }
  intros clf B L. split.
  - apply consult_in_run; [assumption|]. rewrite consult_trace, L. simpl. auto.
  - intros p proba_of P Q. apply consult_in_run; [assumption|].
    rewrite consult_trace, L, P, Q. simpl. auto.
Qed.

End ModelRecord.

Section LocationIndependence.

Import App Shape RuleFacts TraceFacts ModelFacts.

Variables (w1 w2 : World) (f1 f2 : Form).
Hypothesis measurements : same_measurements f1 f2.
Hypothesis model : load w1 MODEL_PATH = load w2 MODEL_PATH.

(** C9.  Two runs whose forms agree on the measurements and the button and
    whose worlds load the same model, whatever the location mode, the
    location fields and the geocoder of each: the model is given the same
    record, the calls to the model and the download button (with the report
    as its data) are the same, and the runs leave the same prediction,
    confidence, tips, link and report, or end with the same exception. *)
Theorem location_does_not_reach_prediction :
  input_data f1 = input_data f2 /\
  filter is_model_or_download (trace (run w1 f1)) =
  filter is_model_or_download (trace (run w2 f2)) /\
  prediction_view (run w1 f1) = prediction_view (run w2 f2).
Proof.
  split; [apply input_data_ext; assumption|].
  rewrite !run_model_events, !run_prediction_view.
  rewrite (consult_ext w1 w2 f1 f2 measurements model).
  rewrite (same_button _ _ measurements).
  destruct (predict_btn f2); [|split; reflexivity].
  destruct (outcome (consult w2 f2)) as [[p c]|e]; [|split; reflexivity].
  now rewrite (assemble_ext f1 f2 p c measurements).
Qed.

End LocationIndependence.

Lemma location_does_not_reach_prediction_sample :
  filter is_model_or_download (trace (App.run Sample.world Sample.form)) =
  filter is_model_or_download
    (trace (App.run Sample.offline_world Sample.form_by_coordinates)) /\
  Shape.prediction_view (App.run Sample.world Sample.form) =
  Shape.prediction_view (App.run Sample.offline_world Sample.form_by_coordinates).
Proof.
  destruct (location_does_not_reach_prediction Sample.world Sample.offline_world
              Sample.form Sample.form_by_coordinates) as (_ & T & V).
  - constructor; reflexivity.
  - reflexivity.
  - split; assumption.
Defined.

(** ** The location *)

Module LocationFacts.

Import App Shape ScriptFacts AppFacts RuleFacts TraceFacts ConfidenceFacts.

Lemma geocode_call_location_only : location_only is_geocode_call.
Proof. intros ev H. now left. Qed.

Lemma warning_location_only : location_only is_warning.
Proof. intros ev H. now right. Qed.

Lemma run_raised w f e :
  outcome (run w f) = Raised e ->
  predict_btn f = true /\ outcome (consult w f) = Raised e.
Proof.
  rewrite run_outcome, after_location_outcome.
  destruct (predict_btn f); [|discriminate].
  destruct (outcome (consult w f)) as [[p c]|e']; [discriminate|].
  intros H. inversion H. auto.
Qed.

Lemma no_map_without_coordinates w f :
  coordinates w f = (None, None) -> filter is_map (trace (run w f)) = [].
Proof.
  intros K. apply filter_none. apply Forall_forall. intros ev H.
  apply in_run in H. rewrite K in H. simpl in H.
  destruct H as [H|[H|[->|[H|[->|(_ & [H|(p & c & _ & H)])]]]]];
    try reflexivity; try contradiction.
  - intuition (subst; reflexivity).
  - apply locate_events in H. destruct ev; simpl in H; intuition congruence.
  - apply consult_events in H. destruct ev; simpl in H; congruence || reflexivity.
  - unfold rendering in H. rewrite !in_app_iff, feedback_trace in H.
    destruct H as [H|[H|H]].
    + destruct (Z.eqb p 1), c; simpl in H; intuition (subst; reflexivity).
    + simpl in H. intuition (subst; reflexivity).
    + destruct H.
Qed.

Lemma assemble_parts f p c :
  prediction (assemble f p c) = p /\ confidence (assemble f p c) = c /\
  (tips (assemble f p c), learn_more (assemble f p c)) = health_tips f p /\
  report (assemble f p c) =
    write_report f p c (tips (assemble f p c)) (learn_more (assemble f p c)).
Proof.
  unfold assemble. destruct (health_tips f p) as [ts link]. repeat split.
Qed.

Lemma proceeds w f :
  coordinates w f = (None, None) -> proceeds_without_coordinates w f.
Proof.
  intros K. split; [apply no_map_without_coordinates; assumption|].
  split; [apply run_raised|]. split.
  - intros B. rewrite (run_idle w f B), K. reflexivity.
  - intros p c B C. exists (assemble f p c).
    split; [rewrite (run_completes w f p c B C), K; reflexivity|].
    destruct (assemble_parts f p c) as (Hp & Hc & Ht & Hr).
    repeat (split; [assumption|]). split.
    + apply (rendering_in_run w f p c); auto.
      unfold rendering. apply in_or_app. right. simpl. auto.
    + apply download_in_run; assumption.
Qed.

Lemma coordinates_of w f t c :
  locate w f = (t, Returned c) -> coordinates w f = c.
Proof. unfold coordinates. now intros ->. Qed.

End LocationFacts.

Section GeocodingFailure.

Import App Shape RuleFacts TraceFacts LocationFacts.

Variables (w : World) (f : Form) (msg : string).
Hypothesis by_name : location_mode f = CountryCity.
Hypothesis entered : location_entry f <> EmptyString.
Hypothesis failed :
  (exists e, geocode w (location_entry f) = Raised e /\
             msg = "Geocoding error: " ++ e) \/
  (geocode w (location_entry f) = Returned None /\
   msg = "Could not find the location. Please check your input.").

(** C6.  When a place name is entered and the geocoder raises or finds
    nothing, the location section calls the geocoder once and shows one
    warning, which is the only warning of the run; the coordinates stay
    [None], and the rest of the flow proceeds without them: the failure does
    not end the run, and a pressed button with a model that answers still
    yields the prediction, the tips and the report. *)
Theorem geocoding_failure_is_a_warning :
  trace (locate w f) = [GeocodeCall (location_entry f); StWarning msg] /\
  filter is_warning (trace (run w f)) = [StWarning msg] /\
  coordinates w f = (None, None) /\
  proceeds_without_coordinates w f.
Proof.
  assert (T : truthy (location_entry f) = true).
  { destruct (location_entry f); [congruence|reflexivity]. }
  assert (L : locate w f =
              ([GeocodeCall (location_entry f); StWarning msg], Returned (None, None))).
  { destruct failed as [(e & G & ->)|(G & ->)].
    - apply AppFacts.locate_error; assumption.
    - apply AppFacts.locate_not_found; assumption. }
  pose proof (coordinates_of w f _ _ L) as K.
  split; [now rewrite L|].
  split; [rewrite (filter_run_location_only _ w f warning_location_only), L; reflexivity|].
  split; [assumption|apply proceeds; assumption].
Qed.

End GeocodingFailure.

Lemma geocoding_failure_is_a_warning_sample :
  filter is_warning (trace (App.run Sample.offline_world Sample.form)) =
  [StWarning "Geocoding error: Service timed out"] /\
  Shape.proceeds_without_coordinates Sample.offline_world Sample.form.
Proof.
  destruct (geocoding_failure_is_a_warning Sample.offline_world Sample.form
              "Geocoding error: Service timed out") as (_ & W & _ & P).
  - reflexivity.
  - discriminate.
  - left. exists "Service timed out". split; reflexivity.
  - split; assumption.
Defined.

Section ExplicitCoordinates.

Import App Shape RuleFacts TraceFacts LocationFacts.

Variables (w : World) (f : Form).
Hypothesis by_coordinates : location_mode f = LatitudeLongitude.

(** C8.  In Latitude/Longitude mode the run never calls the geocoder and shows
    no warning; the two numbers entered are the coordinates, whatever they
    are, (0.0, 0.0) included: they are shown as the location, left in
    [latitude] and [longitude], and drawn on the map when the run reaches a
    prediction. *)
Theorem entered_coordinates_are_used :
  filter is_geocode_call (trace (run w f)) = [] /\
  filter is_warning (trace (run w f)) = [] /\
  coordinates w f = (Some (latitude_entry f), Some (longitude_entry f)) /\
  In (StMarkdown ("<b>Location:</b> (" ++ PyFloat.float_repr (latitude_entry f) ++ ", " ++
                  PyFloat.float_repr (longitude_entry f) ++ ")"))
     (trace (run w f)) /\
  (forall r, outcome (run w f) = Returned r ->
     latitude r = Some (latitude_entry f) /\ longitude r = Some (longitude_entry f)) /\
  (forall r pr, outcome (run w f) = Returned r -> predicted r = Some pr ->
     In (StMap [("lat", [CFloat (latitude_entry f)]); ("lon", [CFloat (longitude_entry f)])])
        (trace (run w f))) /\
  (In (StMarkdown "<b>Location:</b> (0.0, 0.0)")
      (trace (run Sample.bare_world Sample.form_at_origin)) /\
   In (StMap [("lat", [CFloat 0]); ("lon", [CFloat 0])])
      (trace (run Sample.bare_world Sample.form_at_origin))).
Proof.
  pose proof (AppFacts.locate_coordinates_entered w f by_coordinates) as L.
  pose proof (coordinates_of w f _ _ L) as K.
  split; [rewrite (filter_run_location_only _ w f geocode_call_location_only), L;
          reflexivity|].
  split; [rewrite (filter_run_location_only _ w f warning_location_only), L;
          reflexivity|].
  split; [assumption|]. split.
  { apply location_element_in_run. rewrite K. unfold location_element, location_line.
    rewrite by_coordinates. simpl. auto. }
  split.
  { intros r. rewrite AppFacts.run_outcome, AppFacts.after_location_outcome, K.
    destruct (predict_btn f); [destruct (outcome (consult w f)) as [[p c]|e]|];
      intros H; inversion H; subst; auto. }
  split.
  { intros r pr H E.
    destruct (run_predicted w f r pr H E) as (B & p & c & C & _).
    apply (rendering_in_run w f p c _ B C). rewrite K.
    unfold rendering. apply in_or_app. right. apply in_or_app. right.
    simpl. auto 10. }
  split; vm_compute; auto 30.
Qed.

End ExplicitCoordinates.

Lemma entered_coordinates_are_used_sample :
  filter is_geocode_call (trace (App.run Sample.bare_world Sample.form_at_origin)) = [] /\
  Shape.coordinates Sample.bare_world Sample.form_at_origin = (Some 0%float, Some 0%float).
Proof.
  destruct (entered_coordinates_are_used Sample.bare_world Sample.form_at_origin)
    as (G & _ & K & _).
  - reflexivity.
  - split; assumption.
Defined.

Section NoLocation.

Import App Shape RuleFacts TraceFacts LocationFacts.

Variables (w : World) (f : Form).
Hypothesis by_name : location_mode f = CountryCity.
Hypothesis left_empty : location_entry f = EmptyString.

(** C10.  When the place name is left empty, the run never calls the geocoder
    and shows no warning; the coordinates stay [None], and the rest of the
    flow proceeds without them. *)
Theorem empty_location_is_skipped :
  filter is_geocode_call (trace (run w f)) = [] /\
  filter is_warning (trace (run w f)) = [] /\
  coordinates w f = (None, None) /\
  proceeds_without_coordinates w f.
Proof.
  pose proof (AppFacts.locate_empty w f by_name left_empty) as L.
  pose proof (coordinates_of w f _ _ L) as K.
  split; [rewrite (filter_run_location_only _ w f geocode_call_location_only), L;
          reflexivity|].
  split; [rewrite (filter_run_location_only _ w f warning_location_only), L;
          reflexivity|].
  split; [assumption|apply proceeds; assumption].
Qed.

End NoLocation.

Lemma empty_location_is_skipped_sample :
  filter is_geocode_call
    (trace (App.run Sample.nowhere_world Sample.form_without_location)) = [] /\
  Shape.proceeds_without_coordinates Sample.nowhere_world Sample.form_without_location.
Proof.
  destruct (empty_location_is_skipped Sample.nowhere_world Sample.form_without_location)
    as (G & _ & _ & P).
  - reflexivity.
  - reflexivity.
  - split; assumption.
Defined.

(** ** More about the location section *)

Module SelectFacts.

Import App Shape Observe ScriptFacts AppFacts RuleFacts TraceFacts ConfidenceFacts.

Lemma prefix_append (s x : string) : String.prefix s (s ++ x) = true.
Proof.
  induction s as [|a s IH]; simpl; [destruct x; reflexivity|].
  destruct (ascii_dec a a); [assumption|congruence].
Qed.

Lemma filter_cons_app {A : Type} (sel : A -> bool) (x : A) (l : list A) :
  filter sel (x :: l) = (filter sel [x] ++ filter sel l)%list.
Proof. simpl. destruct (sel x); reflexivity. Qed.

(** The events a selector keeps, piece by piece. *)
Lemma filter_run sel w f :
  filter sel (trace (run w f)) =
  (filter sel heading ++ filter sel (trace (locate w f)) ++
   filter sel [StMarkdown (summary f)] ++
   filter sel (location_element f (fst (coordinates w f)) (snd (coordinates w f))) ++
   if predict_btn f then
     filter sel (trace (consult w f)) ++
     match outcome (consult w f) with
     | Returned (p, c) =>
         filter sel (rendering f p c (fst (coordinates w f)) (snd (coordinates w f))) ++
         filter sel [StMarkdown footer]
     | Raised _ => []
     end
   else filter sel [StMarkdown footer])%list.
Proof.
  rewrite run_trace, after_location_trace.
  rewrite !filter_app. do 2 f_equal.
  rewrite (filter_cons_app sel (StMarkdown (summary f))). f_equal.
  rewrite filter_app. f_equal.
  destruct (predict_btn f); [|reflexivity].
  rewrite filter_app.
  destruct (outcome (consult w f)) as [[p c]|e]; [|reflexivity].
  now rewrite filter_app.
Qed.

Lemma filter_locate_none sel w f :
  (forall q, sel (GeocodeCall q) = false) -> (forall b, sel (StWarning b) = false) ->
  filter sel (trace (locate w f)) = [].
Proof.
  intros G W. apply filter_none. apply Forall_forall. intros ev H.
  apply locate_events in H. destruct ev; simpl in H; auto; intuition congruence.
Qed.

Lemma filter_consult_none sel w f :
  (forall ev, is_model_call ev = true -> sel ev = false) ->
  filter sel (trace (consult w f)) = [].
Proof.
  intros M. apply filter_none. apply Forall_forall. intros ev H.
  apply M. rewrite consult_trace in H. destruct H as [<-|H]; [reflexivity|].
  destruct (load w MODEL_PATH) as [clf|]; [|destruct H].
  destruct H as [<-|H]; [reflexivity|].
  destruct (predict clf (input_data f)), (predict_proba clf); simpl in H;
    intuition (subst; reflexivity).
Qed.

Lemma filter_rendering sel f p c la lo :
  filter sel (rendering f p c la lo) =
  (filter sel (trace (feedback p c)) ++
   filter sel [StMarkdown (tips_block (tips (assemble f p c)) (learn_more (assemble f p c)));
               download (assemble f p c)] ++
   filter sel (trace (map_section la lo)))%list.
Proof. unfold rendering. now rewrite !filter_app. Qed.

(** The location section in one equation. *)
Lemma locate_cases w f :
  locate w f =
  if geocoder_asked f then
    match geocode w (location_entry f) with
    | Returned (Some l) =>
        ([GeocodeCall (location_entry f)],
         Returned (Some (loc_latitude l), Some (loc_longitude l)))
    | Returned None =>
        ([GeocodeCall (location_entry f); StWarning warning_not_found],
         Returned (None, None))
    | Raised e =>
        ([GeocodeCall (location_entry f); StWarning (warning_geocoding e)],
         Returned (None, None))
    end
  else
    match location_mode f with
    | CountryCity => ([], Returned (None, None))
    | LatitudeLongitude =>
        ([], Returned (Some (latitude_entry f), Some (longitude_entry f)))
    end.
Proof.
  unfold geocoder_asked. destruct (location_mode f) eqn:M.
  - destruct (truthy (location_entry f)) eqn:T.
    + destruct (geocode w (location_entry f)) as [[l|]|e] eqn:G.
      * now apply locate_found.
      * now apply locate_not_found.
      * now apply locate_error.
    + apply locate_empty; [assumption|now apply truthy_false].
  - now apply locate_coordinates_entered.
Qed.

End SelectFacts.

Section GeocoderUse.

Import App Shape Observe TraceFacts LocationFacts SelectFacts.

Variables (w : World) (f : Form).

(** X1.  The geocoder is called only in Country/City mode with a text that is
    not empty (a blank one counts), then once and with the text as entered.
    A warning is shown only after such a call, when the geocoder raised or
    found nothing; a run shows at most one warning. *)
Theorem geocoder_calls_and_warnings :
  filter is_geocode_call (trace (run w f)) =
    (if geocoder_asked f then [GeocodeCall (location_entry f)] else []) /\
  filter is_warning (trace (run w f)) =
    (if geocoder_asked f then
       match geocode w (location_entry f) with
       | Returned (Some _) => []
       | Returned None =>
           [StWarning "Could not find the location. Please check your input."]
       | Raised e => [StWarning ("Geocoding error: " ++ e)]
       end
     else []) /\
  (List.length (filter is_warning (trace (run w f))) <= 1)%nat.
Proof.
  rewrite (filter_run_location_only _ w f geocode_call_location_only).
  rewrite (filter_run_location_only _ w f warning_location_only).
  rewrite locate_cases.
  destruct (geocoder_asked f).
  - destruct (geocode w (location_entry f)) as [[l|]|e]; simpl; repeat split; auto.
  - destruct (location_mode f); simpl; repeat split; auto.
Qed.

End GeocoderUse.

Section GeocodingSuccess.

Import App Shape Observe RuleFacts TraceFacts LocationFacts SelectFacts.

Variables (w : World) (f : Form) (l : Location).
Hypothesis by_name : location_mode f = CountryCity.
Hypothesis entered : location_entry f <> EmptyString.
Hypothesis found : geocode w (location_entry f) = Returned (Some l).

(** X2.  When a place name is entered and the geocoder finds it, the location
    section is the one call to the geocoder, with no warning; the
    coordinates of the run are those of the place found; the location shown
    under the summary is the text as entered, not the coordinates; and a run
    that reaches a prediction draws the map at the coordinates found. *)
Theorem found_place_is_shown_and_mapped :
  trace (locate w f) = [GeocodeCall (location_entry f)] /\
  coordinates w f = (Some (loc_latitude l), Some (loc_longitude l)) /\
  In (StMarkdown ("<b>Location:</b> " ++ location_entry f)) (trace (run w f)) /\
  (forall r, outcome (run w f) = Returned r ->
     latitude r = Some (loc_latitude l) /\ longitude r = Some (loc_longitude l)) /\
  (forall r pr, outcome (run w f) = Returned r -> predicted r = Some pr ->
     In (StMap [("lat", [CFloat (loc_latitude l)]); ("lon", [CFloat (loc_longitude l)])])
        (trace (run w f))).
Proof.
  assert (T : truthy (location_entry f) = true).
  { destruct (location_entry f); [congruence|reflexivity]. }
  pose proof (AppFacts.locate_found w f l by_name T found) as L.
  pose proof (coordinates_of w f _ _ L) as K.
  split; [now rewrite L|]. split; [assumption|]. split.
  { apply location_element_in_run. rewrite K.
    unfold location_element, location_line, location_text.
    rewrite by_name. simpl. auto. }
  split.
  { intros r. rewrite AppFacts.run_outcome, AppFacts.after_location_outcome, K.
    destruct (predict_btn f); [destruct (outcome (consult w f)) as [[p c]|e]|];
      intros H; inversion H; subst; auto. }
  intros r pr H E.
  destruct (run_predicted w f r pr H E) as (B & p & c & C & _).
  apply (rendering_in_run w f p c _ B C). rewrite K.
  unfold rendering. apply in_or_app. right. apply in_or_app. right.
  simpl. auto 10.
Qed.

End GeocodingSuccess.

Lemma found_place_sample :
  Shape.coordinates Sample.world Sample.form =
    (Some (App.loc_latitude Sample.nairobi), Some (App.loc_longitude Sample.nairobi)) /\
  In (StMarkdown "<b>Location:</b> Nairobi, Kenya")
     (trace (App.run Sample.world Sample.form)).
Proof.
  destruct (found_place_is_shown_and_mapped Sample.world Sample.form Sample.nairobi)
    as (_ & K & S & _).
  - reflexivity.
  - discriminate.
  - reflexivity.
  - split; assumption.
Defined.

Section LocationShown.

Import App Shape Observe RuleFacts TraceFacts LocationFacts SelectFacts.

Variables (w : World) (f : Form).

(** X3.  The two coordinates are set together or not at all.  The location is
    shown exactly when they are set, and then once: as the text entered in
    Country/City mode and as the pair of numbers in Latitude/Longitude mode.
    The map is drawn exactly when they are set and the button was pressed
    and the model answered, and then once, at the coordinates. *)
Theorem location_and_map_follow_the_coordinates :
  (coordinates w f = (None, None) \/
   exists la lo, coordinates w f = (Some la, Some lo)) /\
  filter is_location_line (trace (run w f)) =
    match coordinates w f with
    | (Some la, Some lo) =>
        [StMarkdown ("<b>Location:</b> " ++
           match location_mode f with
           | CountryCity => location_entry f
           | LatitudeLongitude =>
               "(" ++ PyFloat.float_repr la ++ ", " ++ PyFloat.float_repr lo ++ ")"
           end)]
    | _ => []
    end /\
  filter is_map (trace (run w f)) =
    match coordinates w f with
    | (Some la, Some lo) =>
        if answered w f then [StMap [("lat", [CFloat la]); ("lon", [CFloat lo])]] else []
    | _ => []
    end.
Proof.
  split.
  { unfold coordinates. rewrite locate_cases.
    destruct (geocoder_asked f).
    - destruct (geocode w (location_entry f)) as [[l|]|e]; simpl; eauto.
    - destruct (location_mode f); simpl; eauto. }
  split.
  - rewrite filter_run.
    rewrite (filter_locate_none is_location_line) by reflexivity.
    rewrite (filter_consult_none is_location_line)
      by (intros ev; destruct ev; simpl; congruence).
    assert (R : forall p c la lo, filter is_location_line (rendering f p c la lo) = []).
    { intros p c la lo. rewrite filter_rendering, feedback_trace.
      destruct (Z.eqb p 1), c, la, lo; reflexivity. }
    assert (E : filter is_location_line
                  (location_element f (fst (coordinates w f)) (snd (coordinates w f))) =
                location_element f (fst (coordinates w f)) (snd (coordinates w f))).
    { unfold location_element.
      destruct (fst (coordinates w f)), (snd (coordinates w f)); try reflexivity.
      unfold location_line, filter, is_location_line. now rewrite prefix_append. }
    rewrite E.
    replace (if predict_btn f
             then ([] ++ match outcome (consult w f) with
                         | Returned (p, c) =>
                             filter is_location_line
                               (rendering f p c (fst (coordinates w f))
                                  (snd (coordinates w f))) ++
                             filter is_location_line [StMarkdown footer]
                         | Raised _ => []
                         end)%list
             else filter is_location_line [StMarkdown footer]) with (@nil Event).
    2:{ destruct (predict_btn f); [|reflexivity].
        destruct (outcome (consult w f)) as [[p c]|e]; [|reflexivity].
        now rewrite R. }
    simpl. rewrite app_nil_r.
    unfold location_element, location_line, location_text.
    destruct (coordinates w f) as [[la|] [lo|]]; simpl; try reflexivity.
    destruct (location_mode f); reflexivity.
  - rewrite filter_run.
    rewrite (filter_locate_none is_map) by reflexivity.
    rewrite (filter_consult_none is_map)
      by (intros ev; destruct ev; simpl; congruence).
    replace (filter is_map
               (location_element f (fst (coordinates w f)) (snd (coordinates w f))))
      with (@nil Event)
      by (unfold location_element;
          destruct (fst (coordinates w f)), (snd (coordinates w f)); reflexivity).
    unfold answered. simpl.
    destruct (predict_btn f); simpl.
    + destruct (outcome (consult w f)) as [[p c]|e].
      * rewrite filter_rendering, feedback_trace.
        destruct (coordinates w f) as [[la|] [lo|]], (Z.eqb p 1), c; reflexivity.
      * destruct (coordinates w f) as [[la|] [lo|]]; reflexivity.
    + destruct (coordinates w f) as [[la|] [lo|]]; reflexivity.
Qed.

End LocationShown.

(** ** More about the model *)

Module StepFacts.

Import App Shape Observe ScriptFacts AppFacts RuleFacts TraceFacts ConfidenceFacts
  ModelFacts SelectFacts.

(** The consultation and its answer, by what each call did. *)
Lemma consult_steps w f :
  (trace (consult w f) ++
   match outcome (consult w f) with
   | Returned (p, c) => [download (assemble f p c)]
   | Raised _ => []
   end)%list = model_steps w f.
Proof.
  unfold consult, model_steps, call, lift.
  destruct (load w MODEL_PATH) as [clf|e]; [|reflexivity]. simpl.
  destruct (predict clf (input_data f)) as [p|e]; [|reflexivity]. simpl.
  destruct (predict_proba clf) as [proba_of|]; [|reflexivity].
  destruct (proba_of (input_data f)) as [proba|e]; [|reflexivity]. simpl.
  destruct (Numpy.max proba); reflexivity.
Qed.

Lemma consult_failure w f e :
  outcome (consult w f) = Raised e -> model_failure w f e.
Proof.
  unfold consult, model_failure, call, lift.
  destruct (load w MODEL_PATH) as [clf|e'] eqn:L; simpl.
  2:{ intros H. inversion H. subst. now left. }
  destruct (predict clf (input_data f)) as [p|e'] eqn:P; simpl.
  2:{ intros H. inversion H. subst. right. exists clf. auto. }
  destruct (predict_proba clf) as [proba_of|] eqn:Q; [|discriminate].
  destruct (proba_of (input_data f)) as [proba|e'] eqn:R; simpl.
  2:{ intros H. inversion H. subst. right. exists clf. split; [reflexivity|].
      right. exists p, proba_of. auto. }
  destruct proba as [|x rest]; simpl; [|discriminate].
  intros H. inversion H. subst. right. exists clf. split; [reflexivity|].
  right. exists p, proba_of. auto.
Qed.

(** A consultation always starts with the load, so its trace has a last
    event, and that event is a call to the model. *)
Lemma consult_last w f d :
  is_model_call (last (trace (consult w f)) d) = true.
Proof.
  assert (N : trace (consult w f) <> []) by (rewrite consult_trace; discriminate).
  destruct (exists_last N) as (before & ev & E). rewrite E, last_last.
  assert (H : In ev (trace (consult w f))) by (rewrite E; apply in_or_app; simpl; auto).
  rewrite consult_trace in H. destruct H as [<-|H]; [reflexivity|].
  destruct (load w MODEL_PATH) as [clf|]; [|destruct H].
  destruct H as [<-|H]; [reflexivity|].
  destruct (predict clf (input_data f)), (predict_proba clf); simpl in H;
    intuition (subst; reflexivity).
Qed.

Lemma last_app_nonempty {A : Type} (a b : list A) (d : A) :
  b <> [] -> last (a ++ b) d = last b d.
Proof.
  intros N. destruct (exists_last N) as (before & x & ->).
  now rewrite app_assoc, !last_last.
Qed.

End StepFacts.

Section ModelSteps.

Import App Shape Observe ModelFacts StepFacts.

Variables (w : World) (f : Form).

(** X4.  The model is touched only when the button is pressed, and then in a
    fixed order, each step once and only if the one before returned: the
    load, [predict], [predict_proba] when the model has it, and last the
    download button, which is there only if every call returned and the row
    of probabilities was not empty.  Without a press nothing is loaded and
    nothing is offered for download. *)
Theorem model_is_used_step_by_step :
  filter is_model_or_download (trace (run w f)) =
  if predict_btn f then model_steps w f else [].
Proof.
  rewrite run_model_events. destruct (predict_btn f); [|reflexivity].
  apply consult_steps.
Qed.

End ModelSteps.

Section ModelFailure.

Import App Shape Observe ScriptFacts AppFacts RuleFacts TraceFacts ConfidenceFacts
  ModelFacts SelectFacts StepFacts.

Variables (w : World) (f : Form) (e : exn).
Hypothesis pressed : predict_btn f = true.
Hypothesis failed : outcome (consult w f) = Raised e.

(** X5.  When the button is pressed and the consultation of the model fails
    (the load, [predict] or [predict_proba] raises, or the row of
    probabilities is empty, on which [np.max] raises), the run ends with
    that exception right after the failing call: the last event is a call to
    the model, and no headline, no download button, no map and no footer
    follow. *)
Theorem model_failure_ends_the_run :
  outcome (run w f) = Raised e /\
  model_failure w f e /\
  is_model_call (last (trace (run w f)) (StMarkdown EmptyString)) = true /\
  filter is_headline (trace (run w f)) = [] /\
  filter is_download (trace (run w f)) = [] /\
  filter is_map (trace (run w f)) = [] /\
  filter is_footer (trace (run w f)) = [].
Proof.
  split.
  { rewrite run_outcome, after_location_outcome, pressed, failed. reflexivity. }
  split; [apply consult_failure; assumption|].
  split.
  { rewrite (run_trace_failed w f e pressed failed).
    change (StMarkdown (summary f) :: ?x ++ ?y)%list
      with ((StMarkdown (summary f) :: x) ++ y)%list.
    rewrite !app_assoc, last_app_nonempty; [apply consult_last|].
    rewrite consult_trace. discriminate. }
  assert (K : forall sel,
             (forall q, sel (GeocodeCall q) = false) ->
             (forall b, sel (StWarning b) = false) ->
             (forall ev, is_model_call ev = true -> sel ev = false) ->
             filter sel heading = [] ->
             sel (StMarkdown (summary f)) = false ->
             (forall la lo, sel (StMarkdown (location_line f la lo)) = false) ->
             filter sel (trace (run w f)) = []).
  { intros sel G W M H S L. rewrite filter_run, pressed, failed.
    rewrite H, (filter_locate_none sel w f G W), (filter_consult_none sel w f M).
    simpl. rewrite S. unfold location_element.
    destruct (fst (coordinates w f)), (snd (coordinates w f)); simpl;
      rewrite ?L; reflexivity. }
  repeat split; apply K; try reflexivity;
    try (intros ev M; destruct ev; try discriminate M; reflexivity);
    intros la lo; unfold location_line; destruct (location_mode f); reflexivity.
Qed.

End ModelFailure.

Lemma model_failure_sample :
  outcome (App.run Scenario.hollow_world Sample.form) =
    Raised "zero-size array to reduction operation maximum which has no identity" /\
  filter Observe.is_download (trace (App.run Scenario.hollow_world Sample.form)) = [] /\
  filter Observe.is_footer (trace (App.run Scenario.hollow_world Sample.form)) = [].
Proof.
  destruct (model_failure_ends_the_run Scenario.hollow_world Sample.form
              "zero-size array to reduction operation maximum which has no identity")
    as (O & _ & _ & _ & D & _ & F).
  - reflexivity.
  - reflexivity.
  - repeat split; assumption.
Defined.

Section Footer.

Import App Shape Observe ScriptFacts AppFacts RuleFacts TraceFacts StepFacts.

Variables (w : World) (f : Form).


End Footer.

(** ** More about the tips and the label *)

Section TipList.

Import App Shape RuleFacts.

Variables (f : Form) (p : Z).

(** X7.  The tip list never repeats a tip and is never empty: it has the two
    tips of the label Anaemic or the four of any other label, and one more
    for each threshold rule that fires, so between 2 and 4 tips for
    Anaemic and between 4 and 6 otherwise. *)
Theorem tips_are_distinct_and_counted :
  NoDup (fst (health_tips f p)) /\
  List.length (fst (health_tips f p)) =
    ((if PrimFloat.ltb (hb f) 12 then 1 else 0) +
     (if PrimFloat.ltb 40 (green_pixel f) then 1 else 0) +
     (if Z.eqb p 1 then 2 else 4))%nat /\
  (2 <= List.length (fst (health_tips f p)) <= 6)%nat.
Proof.
  rewrite health_tips_spec. unfold Spec.threshold_tips, Spec.label_tips.
  destruct (PrimFloat.ltb (hb f) 12), (PrimFloat.ltb 40 (green_pixel f)), (Z.eqb p 1);
    (split; [|simpl; lia]);
    repeat (constructor;
            [simpl; intros H;
             repeat (destruct H as [H|H]; [cbv in H; discriminate H|]); exact H|]);
    constructor.
Qed.

End TipList.

Module LabelFacts.

Import App Shape Observe ScriptFacts AppFacts RuleFacts TraceFacts SelectFacts.



End LabelFacts.

Section LabelStated.

Import App Shape Observe ScriptFacts AppFacts RuleFacts TraceFacts SelectFacts LabelFacts.

Variables (w : World) (f : Form) (r : Run) (pr : Prediction).
Hypothesis completed : outcome (run w f) = Returned r.
Hypothesis pressed : predicted r = Some pr.


End LabelStated.


(** ** The report, read back *)

Module LineFacts.

Import App Shape Observe RuleFacts ReportFacts ReportLines.

Lemma one_line_append a b : one_line (a ++ b) = one_line a && one_line b.
Proof.
  induction a as [|c a IH]; simpl; [reflexivity|].
  now rewrite IH, andb_assoc.
Qed.

Lemma one_line_uint u : one_line (NilEmpty.string_of_uint u) = true.
Proof. induction u; simpl; auto. Qed.

Lemma one_line_digits z : one_line (PyFloat.digits_of_Z z) = true.
Proof.
  unfold PyFloat.digits_of_Z, NilZero.string_of_uint.
  destruct (N.to_uint (Z.to_N z)); try reflexivity; apply one_line_uint.
Qed.

Lemma one_line_zeros n : one_line (PyFloat.zeros n) = true.
Proof. induction n; simpl; auto. Qed.

Lemma one_line_substring s : forall n m,
  one_line s = true -> one_line (substring n m s) = true.
Proof.
  induction s as [|c s IH]; intros n m H.
  - destruct n, m; reflexivity.
  - simpl in H. apply andb_true_iff in H. destruct H as [Hc Hs].
    destruct n as [|n]; [destruct m as [|m]|]; simpl; auto.
    rewrite Hc. simpl. auto.
Qed.

Lemma one_line_of_list l :
  one_line (string_of_list_ascii l) = forallb (fun c => negb (Ascii.eqb c "010")) l.
Proof. induction l as [|c l IH]; simpl; [reflexivity|now rewrite IH]. Qed.

Lemma strip_zeros_incl l x : In x (PyFloat.strip_zeros l) -> In x l.
Proof.
  induction l as [|c l IH]; simpl; [auto|].
  destruct c as [[] [] [] [] [] [] [] []]; simpl; auto.
Qed.

Lemma one_line_strip s :
  one_line s = true -> one_line (PyFloat.strip_trailing_zeros s) = true.
Proof.
  intros H. unfold PyFloat.strip_trailing_zeros. rewrite one_line_of_list.
  rewrite <- (string_of_list_ascii_of_string s), one_line_of_list in H.
  rewrite forallb_forall in *. intros x Hx.
  apply H. apply in_rev in Hx. apply strip_zeros_incl in Hx. now apply in_rev.
Qed.

Lemma one_line_exponent x : one_line (PyFloat.exponent_text x) = true.
Proof.
  unfold PyFloat.exponent_text. rewrite one_line_append.
  destruct (Z.ltb x 0), (Z.ltb (Z.abs x) 10); simpl; apply one_line_digits.
Qed.

Lemma one_line_layout ds decpt :
  one_line ds = true -> one_line (PyFloat.repr_layout ds decpt) = true.
Proof.
  intros H. unfold PyFloat.repr_layout.
  destruct (Z.leb decpt (-4) || Z.ltb 16 decpt)%bool.
  - destruct ds as [|d rest]; [reflexivity|].
    simpl in H. apply andb_true_iff in H. destruct H as [Hd Hr].
    destruct rest as [|d' rest'].
    + simpl. rewrite Hd. simpl. apply one_line_exponent.
    + rewrite !one_line_append. simpl (one_line (String d EmptyString)).
      rewrite Hd, Hr, one_line_exponent. reflexivity.
  - destruct (Z.leb decpt 0).
    + rewrite !one_line_append, one_line_zeros, H. reflexivity.
    + destruct (Z.leb (Z.of_nat (String.length ds)) decpt).
      * rewrite !one_line_append, one_line_zeros, H. reflexivity.
      * rewrite !one_line_append, !one_line_substring by assumption. reflexivity.
Qed.

Lemma one_line_sign s : one_line (PyFloat.sign_text s) = true.
Proof. destruct s; reflexivity. Qed.

(** Python's text of a float holds no newline. *)
Lemma one_line_float_repr x : one_line (PyFloat.float_repr x) = true.
Proof.
  unfold PyFloat.float_repr.
  destruct (Prim2SF x) as [s|s| |s m e]; try (destruct s; reflexivity); [reflexivity|].
  rewrite one_line_append, one_line_sign. simpl.
  unfold PyFloat.repr_finite.
  destruct (PyFloat.shortest_digits _ _ _ _ _) as [c k].
  apply one_line_layout, one_line_strip, one_line_digits.
Qed.

Lemma one_line_format_1f x : one_line (PyFloat.format_1f x) = true.
Proof.
  unfold PyFloat.format_1f.
  destruct (Prim2SF x) as [s|s| |s m e]; try (destruct s; reflexivity); [reflexivity|].
  rewrite !one_line_append, one_line_sign, !one_line_digits. reflexivity.
Qed.

(** Reading back a line and what follows it. *)
Lemma lines_of_line l rest :
  one_line l = true -> Spec.lines_of (l ++ nl ++ rest) = l :: Spec.lines_of rest.
Proof.
  induction l as [|c l IH]; intros H; [reflexivity|].
  simpl in H. apply andb_true_iff in H. destruct H as [Hc Hl].
  change (Spec.lines_of (String c l ++ nl ++ rest))
    with (if Ascii.eqb c "010" then EmptyString :: Spec.lines_of (l ++ nl ++ rest)
          else match Spec.lines_of (l ++ nl ++ rest) with
               | [] => [String c EmptyString]
               | x :: ls => String c x :: ls
               end).
  apply negb_true_iff in Hc. rewrite Hc, (IH Hl). reflexivity.
Qed.

Lemma lines_of_unlines ls :
  Forall (fun l => one_line l = true) ls -> Spec.lines_of (Spec.unlines ls) = ls.
Proof.
  induction 1 as [|l ls Hl _ IH]; [reflexivity|].
  change (Spec.unlines (l :: ls)) with (l ++ nl ++ Spec.unlines ls).
  rewrite lines_of_line by assumption. now rewrite IH.
Qed.

Lemma one_line_report_lines f p c :
  sex f = "M" \/ sex f = "F" ->
  Forall (fun l => one_line l = true) (Spec.report_lines f (assemble f p c)).
Proof.
  intros S. unfold Spec.report_lines.
  destruct (assemble_fields f p c) as (-> & -> & -> & -> & _).
  repeat (apply Forall_app; split).
  - repeat constructor.
  - unfold Spec.field_lines.
    repeat (constructor; [rewrite one_line_append, ?one_line_float_repr|]);
      try reflexivity; [|constructor].
    destruct S as [-> | ->]; reflexivity.
  - unfold Spec.prediction_line, Spec.label. destruct (Z.eqb p 1); repeat constructor.
  - destruct c as [c|]; [|constructor]. constructor; [|constructor].
    unfold percent. rewrite !one_line_append, one_line_format_1f. reflexivity.
  - repeat constructor.
  - unfold Spec.tip_lines, Spec.threshold_tips, Spec.label_tips.
    destruct (PrimFloat.ltb (hb f) 12), (PrimFloat.ltb 40 (green_pixel f)), (Z.eqb p 1);
      repeat constructor.
  - unfold Spec.reference_link. destruct (Z.eqb p 1); repeat constructor.
Qed.

End LineFacts.

Section ReportReadBack.

Import App Shape Observe RuleFacts ReportFacts ReportLines LineFacts.

Variables (w : World) (f : Form) (r : Run) (pr : Prediction).
Hypothesis completed : outcome (run w f) = Returned r.
Hypothesis pressed : predicted r = Some pr.
Hypothesis sex_option : sex f = "M" \/ sex f = "F".

(** X9.  With the sex one of the two options of the select box, the report of
    a run that reaches a prediction reads back line by line as the lines it
    was built from: no value written to it breaks a line.  It has 12 lines
    and one for each tip, and one more when there is a confidence. *)
Theorem report_reads_back_line_by_line :
  Spec.lines_of (report pr) = Spec.report_lines f pr /\
  List.length (Spec.lines_of (report pr)) =
    (12 + List.length (tips pr) +
     match confidence pr with Some _ => 1 | None => 0 end)%nat.
Proof.
  destruct (run_predicted w f r pr completed pressed) as (_ & p & c & _ & ->).
  assert (E : Spec.lines_of (report (assemble f p c)) =
              Spec.report_lines f (assemble f p c)).
  { rewrite report_of_assemble. apply lines_of_unlines.
    apply one_line_report_lines. assumption. }
  split; [assumption|]. rewrite E. unfold Spec.report_lines.
  rewrite !length_app. unfold Spec.tip_lines. rewrite length_map.
  destruct (confidence (assemble f p c)); simpl; lia.
Qed.

End ReportReadBack.

Lemma report_reads_back_sample :
  Spec.lines_of (App.report Sample.prediction) =
    Spec.report_lines Sample.form Sample.prediction /\
  List.length (Spec.lines_of (App.report Sample.prediction)) = 16%nat.
Proof.
  destruct (report_reads_back_line_by_line Sample.world Sample.form Sample.result
              Sample.prediction) as (L & N).
  - vm_compute. reflexivity.
  - reflexivity.
  - right. reflexivity.
  - split; [assumption|]. rewrite N. reflexivity.
Defined.
